(** * api-node: matrix validation, orchestration and statistics

    A shallow embedding of the TypeScript core of the service:

    - [src/domain/errors/app.errors.ts]: the [AppError] hierarchy;
    - [src/application/use-cases/matrix/process-matrix-and-get-stats.usecase.ts]:
      input validation, the gateway call with its [catch] block, and
      [calculateMatrixStatistics];
    - [src/application/use-cases/matrix/calculate-matrix-stats.usecase.ts]:
      the stand-alone statistics use case;
    - [src/infrastructure/http-client/go-api.http-client.ts]: the
      constructor, the response interceptor and [processMatrix];
    - [src/interfaces/http/controllers/matrix.controller.ts]: the
      controller's checks and its [catch] block;
    - [src/interfaces/http/middleware/auth.middleware.ts]: the bearer-token
      middleware, over the library's [jwt.verify];
    - [src/app.ts]: the error middleware and the chain of handlers of
      POST /api/matrix/process-matrix;
    - [src/config/index.ts]: the defaults and the exit on a missing token.

    JavaScript numbers are IEEE-754 binary64 values, modelled by Rocq's
    primitive [float]. Values whose static type is [any]/[unknown] at run
    time (the request matrix, a caught error) are modelled by explicit
    sums; values the code never inspects keep their TypeScript type.
    [execute] takes the [matrix] field of its request, and threads the
    list of arguments the gateway has been called with. *)

From Stdlib Require Import Floats ZArith List String Bool Lia PeanoNat.
From Stdlib Require Import DecimalString.
Import ListNotations.

Local Open Scope string_scope.
Local Open Scope list_scope.

(** ** JavaScript values *)

(** The run-time values a JSON body (or a test double) can put in the
    [matrix] field of the request. *)
#[warnings="-register-all"]
Inductive JsValue : Type :=
| JsUndefined
| JsNull
| JsBoolean (b : bool)
| JsNumber (x : float)
| JsString (s : string)
| JsArray (items : list JsValue)
| JsObject (props : list (string * JsValue)).

(** [typeof v] *)
Definition typeof (v : JsValue) : string :=
  match v with
  | JsUndefined => "undefined"
  | JsNull => "object"
  | JsBoolean _ => "boolean"
  | JsNumber _ => "number"
  | JsString _ => "string"
  | JsArray _ => "object"
  | JsObject _ => "object"
  end.

(** ToBoolean: [undefined], [null], [false], [+0], [-0], [NaN] and the
    empty string are falsy. *)
Definition truthy (v : JsValue) : bool :=
  match v with
  | JsUndefined | JsNull => false
  | JsBoolean b => b
  | JsNumber x => negb (PrimFloat.is_zero x || PrimFloat.is_nan x)
  | JsString s => negb (String.eqb s "")
  | JsArray _ | JsObject _ => true
  end.

(** [Array.isArray v] *)
Definition Array_isArray (v : JsValue) : bool :=
  match v with
  | JsArray _ => true
  | _ => false
  end.

(** The number a non-negative integer denotes ([length] of an array). *)
Definition number_of_nat (n : nat) : float :=
  PrimFloat.of_uint63 (Uint63.of_Z (Z.of_nat n)).

Fixpoint lookup_prop (k : string) (props : list (string * JsValue)) : JsValue :=
  match props with
  | [] => JsUndefined
  | (k', v) :: rest => if String.eqb k k' then v else lookup_prop k rest
  end.

(** The UTF-16 code units a byte of a UTF-8 text stands for: one for an
    ASCII byte and for the first byte of a two- or three-byte sequence,
    two (a surrogate pair) for the first byte of a four-byte sequence,
    none for a continuation byte. *)
Definition utf16_units (c : Ascii.ascii) : nat :=
  let n := Ascii.nat_of_ascii c in
  if Nat.ltb n 128 then 1
  else if Nat.ltb n 192 then 0
  else if Nat.ltb n 240 then 1
  else 2.

(** [s.length] of a string: its number of UTF-16 code units. *)
Fixpoint utf16_length (s : string) : nat :=
  match s with
  | EmptyString => 0
  | String c rest => utf16_units c + utf16_length rest
  end.

(** [v.length === n] for an integer [n]; [None] when reading the property
    throws (on [undefined] and [null]). *)
Definition length_is (v : JsValue) (n : nat) : option bool :=
  match v with
  | JsUndefined | JsNull => None
  | JsBoolean _ | JsNumber _ => Some false
  | JsString s => Some (Nat.eqb (utf16_length s) n)
  | JsArray items => Some (Nat.eqb (List.length items) n)
  | JsObject props =>
      match lookup_prop "length" props with
      | JsNumber x => Some (PrimFloat.eqb x (number_of_nat n))
      | _ => Some false
      end
  end.

(** [v[0]] for a value that is neither [undefined] nor [null]. *)
Definition index0 (v : JsValue) : JsValue :=
  match v with
  | JsArray (x :: _) => x
  | JsString (String c _) => JsString (String c EmptyString)
  | JsObject props => lookup_prop "0" props
  | _ => JsUndefined
  end.

(** ** Errors: src/domain/errors/app.errors.ts *)

(** The classes the file declares. [AppError]'s constructor resets the
    prototype of what it builds, so only the first is ever the class of
    an instance. *)
Inductive ErrorClass : Type :=
| AppErrorClass
| InvalidMatrixErrorClass
| GoApiErrorClass
| UnauthorizedErrorClass
| InternalServerErrorClass.

Record AppError : Type := mkAppError {
  class : ErrorClass;
  message : string;
  statusCode : Z;
  errorCode : string;
  details : option string
}.

(** A default parameter value applies when the argument is [undefined]. *)
Definition default {A : Type} (d : A) (arg : option A) : A :=
  match arg with
  | Some a => a
  | None => d
  end.

(** [constructor(message, statusCode = 500, errorCode = 'SERVER_ERROR', details?)].
    The constructor ends with [Object.setPrototypeOf(this, AppError.prototype)],
    so the object built by [new] of any subclass is a plain [AppError]:
    [class] records the prototype the instance is left with. *)
Definition new_AppError (message : string)
    (statusCode : option Z) (errorCode : option string)
    (details : option string) : AppError :=
  {| class := AppErrorClass;
     message := message;
     statusCode := default 500%Z statusCode;
     errorCode := default "SERVER_ERROR" errorCode;
     details := details |}.

(** [constructor(details?) { super('Invalid matrix provided.', 400, 'INVALID_MATRIX', details) }] *)
Definition InvalidMatrixError (details : option string) : AppError :=
  new_AppError "Invalid matrix provided."
    (Some 400%Z) (Some "INVALID_MATRIX") details.

(** [constructor(message = 'Error communicating with Go API.', details?, statusCode = 500)
     { super(message, statusCode, 'GO_API_ERROR', details) }] *)
Definition GoApiError (message : option string) (details : option string)
    (statusCode : option Z) : AppError :=
  new_AppError
    (default "Error communicating with Go API." message)
    (Some (default 500%Z statusCode)) (Some "GO_API_ERROR") details.

(** [constructor(details?) { super('Authentication required or invalid token.', 401, 'UNAUTHORIZED', details) }] *)
Definition UnauthorizedError (details : option string) : AppError :=
  new_AppError "Authentication required or invalid token."
    (Some 401%Z) (Some "UNAUTHORIZED") details.

(** ** Entities: src/domain/entities/matrix.ts *)

Definition Matrix : Type := list (list float).

Record QRFactorization : Type := mkQR { Q : Matrix; R : Matrix }.

Record GoApiResponseData : Type := mkGoData {
  original_matrix : Matrix;
  rotated_matrix : Matrix;
  qr_factorization : QRFactorization
}.

(** [GoApiResponse]: every field is optional. *)
Record GoApiResponse : Type := mkGoResponse {
  resp_data : option GoApiResponseData;
  resp_message : option string;
  resp_error : option string;
  resp_details : option string
}.

Record MatrixStatistics : Type := mkStats {
  maxValue : float;
  minValue : float;
  average : float;
  totalSum : float;
  isDiagonalOriginal : bool;
  isDiagonalRotated : bool
}.

Record ProcessedMatrixResult : Type := mkResult {
  originalMatrix : Matrix;
  rotatedMatrix : Matrix;
  qrFactorization : QRFactorization;
  statistics : MatrixStatistics
}.

(** ** Thrown values *)

(** [error.response] of an Axios error: a status and the parsed body. *)
Record AxiosResponse : Type := mkAxiosResponse {
  status : Z;
  data : option GoApiResponse
}.

(** What a [catch (error: any)] can receive: an [AppError] instance, an
    Axios error (an [Error] with [response]/[request] attached), or a
    native error such as a [TypeError]. *)
Inductive JsError : Type :=
| AppErr (e : AppError)
| AxiosErr (msg : string) (response : option AxiosResponse) (request : bool)
| NativeErr (name : string) (msg : string).

(** [error.message] *)
Definition error_message (error : JsError) : string :=
  match error with
  | AppErr e => message e
  | AxiosErr msg _ _ => msg
  | NativeErr _ msg => msg
  end.

(** [error.response] *)
Definition error_response (error : JsError) : option AxiosResponse :=
  match error with
  | AxiosErr _ response _ => response
  | _ => None
  end.

(** The result of running a piece of code: a value, or a thrown error. *)
Inductive Outcome (A : Type) : Type :=
| Returned (a : A)
| Thrown (error : JsError).
Arguments Returned {A} a.
Arguments Thrown {A} error.

(** [a || b] on optional strings: the left operand unless it is
    [undefined] or empty. *)
Definition or_else (a : option string) (b : string) : string :=
  match a with
  | Some s => if String.eqb s "" then b else s
  | None => b
  end.

(** Template-literal rendering of an integer status. *)
Definition string_of_status (status : Z) : string :=
  NilZero.string_of_int (Z.to_int status).

(** ** Input validation: process-matrix-and-get-stats.usecase.ts, lines 39-56 *)

Definition MSG_EMPTY : string := "Input matrix is empty or malformed.".
Definition MSG_RECTANGULAR : string :=
  "Matrix must be rectangular (all rows must have the same number of columns).".
Definition MSG_NUMBERS : string := "Matrix must contain only arrays of numbers.".
Definition MSG_NO_VALUES : string :=
  "No numeric values found in matrices to calculate statistics.".

Definition throw_invalid {A : Type} (details : string) : Outcome A :=
  Thrown (AppErr (InvalidMatrixError (Some details))).

Definition type_error {A : Type} (msg : string) : Outcome A :=
  Thrown (NativeErr "TypeError" msg).

(** [!matrix || matrix.length === 0 || !Array.isArray(matrix[0])] *)
Definition empty_or_malformed (matrix : JsValue) : bool :=
  negb (truthy matrix)
  || match length_is matrix 0 with Some b => b | None => true end
  || negb (Array_isArray (index0 matrix)).

(** [row.every(item => typeof item === 'number')] on an array *)
Definition every_number (items : list JsValue) : bool :=
  forallb (fun item => String.eqb (typeof item) "number") items.

(** The body of [for (const row of matrix)]: the first row that fails a
    check throws, and within a row the length is checked before the cells. *)
Fixpoint check_rows (numCols : nat) (rows : list JsValue) : Outcome unit :=
  match rows with
  | [] => Returned tt
  | row :: rest =>
      match length_is row numCols with
      | None =>
          type_error
            (match row with
             | JsNull => "Cannot read properties of null (reading 'length')"
             | _ => "Cannot read properties of undefined (reading 'length')"
             end)
      | Some false => throw_invalid MSG_RECTANGULAR
      | Some true =>
          match row with
          | JsArray items =>
              if every_number items then check_rows numCols rest
              else throw_invalid MSG_NUMBERS
          | _ => type_error "row.every is not a function"
          end
      end
  end.

Definition validate (matrix : JsValue) : Outcome unit :=
  if empty_or_malformed matrix then throw_invalid MSG_EMPTY
  else
    let numCols :=
      match index0 matrix with
      | JsArray items => List.length items
      | _ => 0
      end in
    match matrix with
    | JsArray rows => check_rows numCols rows
    | _ => type_error "matrix is not iterable"
    end.

(** ** Statistics *)

Local Open Scope float_scope.

Definition is_pos_zero (x : float) : bool :=
  PrimFloat.is_zero x && negb (PrimFloat.get_sign x).

Definition is_neg_zero (x : float) : bool :=
  PrimFloat.is_zero x && PrimFloat.get_sign x.

(** [Math.max(...numbers)] (ECMA-262, 21.3.2.24): start from -Infinity,
    return NaN as soon as a NaN is met, prefer +0 over -0. *)
Fixpoint Math_max_from (highest : float) (numbers : list float) : float :=
  match numbers with
  | [] => highest
  | number :: rest =>
      if PrimFloat.is_nan number then nan
      else
        let highest :=
          if is_pos_zero number && is_neg_zero highest then number else highest in
        let highest := if highest <? number then number else highest in
        Math_max_from highest rest
  end.

Definition Math_max (numbers : list float) : float :=
  Math_max_from neg_infinity numbers.

(** [Math.min(...numbers)] (ECMA-262, 21.3.2.25) *)
Fixpoint Math_min_from (lowest : float) (numbers : list float) : float :=
  match numbers with
  | [] => lowest
  | number :: rest =>
      if PrimFloat.is_nan number then nan
      else
        let lowest :=
          if is_neg_zero number && is_pos_zero lowest then number else lowest in
        let lowest := if number <? lowest then number else lowest in
        Math_min_from lowest rest
  end.

Definition Math_min (numbers : list float) : float :=
  Math_min_from infinity numbers.

(** [matrix.forEach(row => allValues = allValues.concat(row))] *)
Definition concat_rows (allValues : list float) (matrix : Matrix) : list float :=
  fold_left (fun allValues row => allValues ++ row) matrix allValues.

(** [allValues.reduce((sum, val) => sum + val, 0)] *)
Definition reduce_sum (allValues : list float) : float :=
  fold_left (fun sum val => sum + val) allValues 0.

(** [matrix[i][j]]; [None] is [undefined]. *)
Definition cell (matrix : Matrix) (i j : nat) : option float :=
  match nth_error matrix i with
  | Some row => nth_error row j
  | None => None
  end.

(** [matrix[i][j] !== 0] *)
Definition cell_nonzero (matrix : Matrix) (i j : nat) : bool :=
  match cell matrix i j with
  | Some v => negb (v =? 0)
  | None => true
  end.

(** The [isDiagonal] closure; both use cases define it with the same body.
    A [false] in the nested [forallb] is the early [return false]. *)
Definition isDiagonal (matrix : Matrix) : bool :=
  if Nat.eqb (List.length matrix) 0 then false
  else
    let rows := List.length matrix in
    let cols := match matrix with row0 :: _ => List.length row0 | [] => 0%nat end in
    if negb (Nat.eqb rows cols) then false
    else
      forallb (fun i =>
        forallb (fun j => negb (negb (Nat.eqb i j) && cell_nonzero matrix i j))
                (seq 0 cols))
              (seq 0 rows).

(** [f(...args)]: the spread passes every element as an argument, and
    the engine throws a [RangeError] when there are more arguments than
    it has room for. That bound, [max_arguments], depends on the engine
    and its stack size, and is a parameter of the code that spreads. *)
Definition spread_call (max_arguments : N) (f : list float -> float)
    (args : list float) : Outcome float :=
  if N.leb (N.of_nat (List.length args)) max_arguments then Returned (f args)
  else Thrown (NativeErr "RangeError" "Maximum call stack size exceeded").

(** The statistics record the statements after the emptiness guard
    build when both spreads go through. *)
Definition statistics_of (allValues : list float)
    (originalMatrix rotatedMatrix : Matrix) : MatrixStatistics :=
  let maxValue := Math_max allValues in
  let minValue := Math_min allValues in
  let totalSum := reduce_sum allValues in
  let average := totalSum / number_of_nat (List.length allValues) in
  {| maxValue := maxValue;
     minValue := minValue;
     average := average;
     totalSum := totalSum;
     isDiagonalOriginal := isDiagonal originalMatrix;
     isDiagonalRotated := isDiagonal rotatedMatrix |}.

(** The statements after the emptiness guard, shared by both use cases:
    [Math.max(...allValues)], then [Math.min(...allValues)], then the sum,
    the average and the two diagonal flags. *)
Definition statistics_after_guard (max_arguments : N) (allValues : list float)
    (originalMatrix rotatedMatrix : Matrix) : Outcome MatrixStatistics :=
  match spread_call max_arguments Math_max allValues with
  | Thrown error => Thrown error
  | Returned maxValue =>
      match spread_call max_arguments Math_min allValues with
      | Thrown error => Thrown error
      | Returned minValue =>
          let totalSum := reduce_sum allValues in
          let average := totalSum / number_of_nat (List.length allValues) in
          Returned {| maxValue := maxValue;
                      minValue := minValue;
                      average := average;
                      totalSum := totalSum;
                      isDiagonalOriginal := isDiagonal originalMatrix;
                      isDiagonalRotated := isDiagonal rotatedMatrix |}
      end
  end.

(** [ProcessMatrixAndGetStatsUseCase.calculateMatrixStatistics] *)
Definition calculateMatrixStatistics (max_arguments : N)
    (originalMatrix rotatedMatrix : Matrix) : Outcome MatrixStatistics :=
  let allValues := [] in
  let allValues := concat_rows allValues originalMatrix in
  let allValues := concat_rows allValues rotatedMatrix in
  if Nat.eqb (List.length allValues) 0 then throw_invalid MSG_NO_VALUES
  else statistics_after_guard max_arguments allValues originalMatrix rotatedMatrix.

Module CalculateMatrixStatsUseCase.

Definition MSG_EMPTY_MATRICES : string :=
  "Matrices provided are empty or invalid for statistics calculation.".

(** [CalculateMatrixStatsUseCase.execute]: the same computation behind
    one more guard, which rejects a matrix with zero rows. *)
Definition execute (max_arguments : N) (data : GoApiResponseData)
    : Outcome MatrixStatistics :=
  let original_matrix := original_matrix data in
  let rotated_matrix := rotated_matrix data in
  if Nat.eqb (List.length original_matrix) 0
     || Nat.eqb (List.length rotated_matrix) 0
  then throw_invalid MSG_EMPTY_MATRICES
  else
    let allValues := [] in
    let allValues := concat_rows allValues original_matrix in
    let allValues := concat_rows allValues rotated_matrix in
    if Nat.eqb (List.length allValues) 0 then throw_invalid MSG_NO_VALUES
    else statistics_after_guard max_arguments allValues original_matrix rotated_matrix.

End CalculateMatrixStatsUseCase.

Local Close Scope float_scope.

(** ** The gateway port and the orchestration use case *)

(** [GoApiGateway.processMatrix]: the settled promise for a given argument. *)
Definition GoApiGateway : Type := JsValue -> Outcome GoApiResponseData.

(** Computations that may call the gateway: the state is the list of
    arguments [processMatrix] has been called with, oldest first. *)
Definition Calls : Type := list JsValue.
Definition Run (A : Type) : Type := Calls -> Outcome A * Calls.

Definition ret {A : Type} (a : A) : Run A := fun calls => (Returned a, calls).

Definition bind {A B : Type} (m : Run A) (k : A -> Run B) : Run B :=
  fun calls =>
    match m calls with
    | (Returned a, calls') => k a calls'
    | (Thrown error, calls') => (Thrown error, calls')
    end.

Definition lift {A : Type} (o : Outcome A) : Run A := fun calls => (o, calls).

(** [try { body } catch (error) { handler }] *)
Definition try_catch {A : Type} (body : Run A) (handler : JsError -> Run A) : Run A :=
  fun calls =>
    match body calls with
    | (Returned a, calls') => (Returned a, calls')
    | (Thrown error, calls') => handler error calls'
    end.

(** [await this.goApiGateway.processMatrix(matrix)] *)
Definition call_processMatrix (goApiGateway : GoApiGateway) (matrix : JsValue)
    : Run GoApiResponseData :=
  fun calls => (goApiGateway matrix, calls ++ [matrix]).

Declare Scope run_scope.
Delimit Scope run_scope with run.
Notation "x <- m ;; k" := (bind m (fun x => k))
  (at level 61, m at next level, right associativity) : run_scope.
Notation "m ;;; k" := (bind m (fun _ => k))
  (at level 61, right associativity) : run_scope.

Definition DIMENSIONS_CODE : string := "dimensiones_de_matriz_invalidas".

(** [o?.f] on an optional body *)
Definition opt_field (o : option GoApiResponse) (f : GoApiResponse -> option string)
    : option string :=
  match o with
  | Some body => f body
  | None => None
  end.

(** [x === 'literal'] for an optional string *)
Definition is_string (x : option string) (literal : string) : bool :=
  match x with
  | Some s => String.eqb s literal
  | None => false
  end.

Module ProcessMatrixAndGetStatsUseCase.

(** The [catch (error: any)] block of [execute], lines 62-79. *)
Definition on_gateway_error (error : JsError) : AppError :=
  let network :=
    GoApiError
      (Some ("Fallo al conectar o error desconocido de la API de Go: "
             ++ error_message error)%string)
      (Some "NETWORK_ERROR") None in
  match error_response error with
  | Some response =>
      if Z.eqb (status response) 0 then network
      else if Z.eqb (status response) 400
              && is_string (opt_field (data response) resp_error) DIMENSIONS_CODE
      then
        InvalidMatrixError
          (Some (or_else (opt_field (data response) resp_details)
                   "Las dimensiones de la matriz son inválidas según la API de Go."))
      else
        GoApiError
          (Some (or_else (opt_field (data response) resp_details)
                   ("Error de la API de Go con estado "
                    ++ string_of_status (status response) ++ ".")%string))
          (Some (or_else (opt_field (data response) resp_error) "GO_API_ERROR"))
          (Some (status response))
  | None => network
  end.

(** [execute(request)], with [matrix] the field of the request. *)
Definition execute (max_arguments : N) (goApiGateway : GoApiGateway)
    (matrix : JsValue) : Run ProcessedMatrixResult :=
  (lift (validate matrix) ;;;
   goResult <- try_catch (call_processMatrix goApiGateway matrix)
                 (fun error => lift (Thrown (AppErr (on_gateway_error error)))) ;;
   statistics <- lift (calculateMatrixStatistics max_arguments
                         (original_matrix goResult) (rotated_matrix goResult)) ;;
   ret {| originalMatrix := original_matrix goResult;
          rotatedMatrix := rotated_matrix goResult;
          qrFactorization := qr_factorization goResult;
          statistics := statistics |})%run.

End ProcessMatrixAndGetStatsUseCase.

(** ** The HTTP client: go-api.http-client.ts *)

Module GoApiHttpClient.

(** What [this.client.post] settles to before the interceptor runs: a
    2xx response with its body, or an Axios error. *)
Inductive PostResult : Type :=
| Fulfilled (body : option GoApiResponse)
| Failed (msg : string) (response : option AxiosResponse) (request : bool).

(** The rejection handler of the response interceptor, lines 41-66. *)
Definition interceptor (msg : string) (response : option AxiosResponse)
    (request : bool) : JsError :=
  match response with
  | Some r =>
      let status := status r in
      match data r with
      | Some errorData =>
          if Z.eqb status 401 then
            AppErr (UnauthorizedError
                      (Some (or_else (resp_details errorData)
                               "Token de acceso de la aplicación inválido o expirado.")))
          else if Z.eqb status 400 && is_string (resp_error errorData) DIMENSIONS_CODE
          then AxiosErr msg response request
          else
            AppErr (GoApiError
                      (Some (or_else (resp_message errorData)
                               (or_else (resp_details errorData)
                                  ("Go API responded with status "
                                   ++ string_of_status status)%string)))
                      (Some (or_else (resp_error errorData)
                               ("HTTP_STATUS_" ++ string_of_status status)%string))
                      (Some status))
      | None =>
          NativeErr "TypeError"
            (if Z.eqb status 401
             then "Cannot read properties of undefined (reading 'details')"
             else if Z.eqb status 400
             then "Cannot read properties of undefined (reading 'error')"
             else "Cannot read properties of undefined (reading 'message')")
      end
  | None =>
      if request then
        AppErr (GoApiError
                  (Some "No response received from Go API. It might be down or unreachable.")
                  (Some "NETWORK_ERROR") None)
      else
        AppErr (GoApiError (Some ("Error setting up request to Go API: " ++ msg)%string)
                  None None)
  end.

(** [processMatrix(matrix)] over a transport [post]. *)
Definition processMatrix (post : JsValue -> PostResult) : GoApiGateway :=
  fun matrix =>
    match post matrix with
    | Fulfilled (Some body) =>
        match resp_data body with
        | Some d => Returned d
        | None =>
            Thrown (AppErr (GoApiError
                              (Some "Go API response data is malformed or missing.")
                              None None))
        end
    | Fulfilled None =>
        Thrown (AppErr (GoApiError
                          (Some "Go API response data is malformed or missing.")
                          None None))
    | Failed msg response request => Thrown (interceptor msg response request)
    end.

End GoApiHttpClient.


(** ** The order of numbers

    Comparisons of non-NaN binary64 values agree with the lexicographic
    order of a key read off their IEEE-754 decomposition; the statistics
    use it to say what a maximum and a minimum are. *)

Definition sf_key (f : spec_float) : Z * Z * Z :=
  match f with
  | S754_nan => (0, 0, 0)%Z
  | S754_zero _ => (0, 0, 0)%Z
  | S754_infinity s => (if s then (-2)%Z else 2%Z, 0%Z, 0%Z)
  | S754_finite s m e => if s then ((-1)%Z, (- e)%Z, (- Zpos m)%Z) else (1%Z, e, Zpos m)
  end.

Definition key_lt (a b : Z * Z * Z) : Prop :=
  let '(a1, a2, a3) := a in
  let '(b1, b2, b3) := b in
  (a1 < b1 \/ (a1 = b1 /\ (a2 < b2 \/ (a2 = b2 /\ a3 < b3))))%Z.

Definition key_le (a b : Z * Z * Z) : Prop := key_lt a b \/ a = b.

Definition fkey (x : float) : Z * Z * Z := sf_key (Prim2SF x).

(** No cell is NaN. *)
Definition no_NaN (numbers : list float) : Prop :=
  Forall (fun x => PrimFloat.is_nan x = false) numbers.



(** The column count of the first row, when there is one. *)
Definition first_row_length (matrix : Matrix) : option nat :=
  match matrix with
  | row0 :: _ => Some (List.length row0)
  | [] => None
  end.

(** Row count equals the column count of the first row. *)
Definition square (matrix : Matrix) : Prop :=
  first_row_length matrix = Some (List.length matrix).

(** All rows are as long as the first one. *)
Definition rectangular (matrix : Matrix) : Prop :=
  forall row, In row matrix -> Some (List.length row) = first_row_length matrix.

(** [v === 0] on numbers: both zeros are, NaN is not. *)
Definition is_zero_number (v : float) : Prop := PrimFloat.eqb v 0 = true.

(** ** Shapes of request matrices *)

(** The request value whose rows are the given arrays. *)
Definition matrix_of (rows : list (list JsValue)) : JsValue :=
  JsArray (map JsArray rows).

(** The length of the first row ([numCols] in [execute]). *)
Definition numCols_of (rows : list (list JsValue)) : nat :=
  match rows with
  | row0 :: _ => List.length row0
  | [] => 0
  end.

Definition numeric_cell (c : JsValue) : Prop := typeof c = "number".

(** A cell that is a number other than NaN, Infinity and -Infinity. *)
Definition finite_cell (c : JsValue) : Prop :=
  exists x, c = JsNumber x /\ PrimFloat.is_finite x = true.

(** A row that passes both checks of the loop body. *)
Definition good_row (numCols : nat) (row : list JsValue) : Prop :=
  List.length row = numCols /\ Forall numeric_cell row.

Definition has_ragged_row (rows : list (list JsValue)) : Prop :=
  exists row, In row rows /\ List.length row <> numCols_of rows.

Definition has_non_numeric_cell (rows : list (list JsValue)) : Prop :=
  exists row c, In row rows /\ In c row /\ ~ numeric_cell c.

(** The row test of the loop body, as one boolean: the row throws. *)
Definition offending (numCols : nat) (row : list JsValue) : bool :=
  negb (Nat.eqb (List.length row) numCols) || negb (every_number row).

(** An input the validation is meant to reject: absent (or otherwise
    falsy), without rows, with a first row that is not an array, or an
    array of arrays with a ragged row or a cell that is not a number. *)
Definition invalid_input (matrix : JsValue) : Prop :=
  truthy matrix = false
  \/ matrix = JsArray []
  \/ Array_isArray (index0 matrix) = false
  \/ exists rows,
       matrix = matrix_of rows /\ rows <> []
       /\ (has_ragged_row rows \/ has_non_numeric_cell rows).

(** The collection can be spread into one call: it has no more elements
    than the engine takes arguments. *)
Definition fits (max_arguments : N) (numbers : list float) : Prop :=
  (N.of_nat (List.length numbers) <= max_arguments)%N.

(** The error of a spread that does not fit. *)
Definition range_error : JsError :=
  NativeErr "RangeError" "Maximum call stack size exceeded".

(** The messages of the [TypeError]s the validation can throw: reading
    [length] of a row that is [null] or [undefined], calling [every] on
    a row that is not an array, iterating a matrix that is not one. *)
Definition validation_type_error (msg : string) : Prop :=
  msg = "Cannot read properties of null (reading 'length')"
  \/ msg = "Cannot read properties of undefined (reading 'length')"
  \/ msg = "row.every is not a function"
  \/ msg = "matrix is not iterable".

(** ** Statements and inputs used below *)

(** The request matrix [[1,2], null]. *)
Definition matrix_with_null_row : JsValue :=
  JsArray [JsArray [JsNumber 1; JsNumber 2]; JsNull].


(** The claim of C2 about matrices with both defects, as a proposition. *)
Definition ragged_always_wins : Prop :=
  forall rows,
    has_ragged_row rows -> has_non_numeric_cell rows ->
    validate (matrix_of rows) = throw_invalid MSG_RECTANGULAR.

(** The claim of C7, as a proposition: a cell that is not a finite number
    makes validation fail with the non-numeric error. *)
Definition non_finite_cell_rejected : Prop :=
  forall rows,
    (exists row c, In row rows /\ In c row /\ ~ finite_cell c) ->
    validate (matrix_of rows) = throw_invalid MSG_NUMBERS.

(** The Axios error the client passes through for a backend 400 with the
    dimension code and the given details. *)
Definition dimension_error (details : option string) : JsError :=
  AxiosErr "Request failed with status code 400"
    (Some {| status := 400;
             data := Some {| resp_data := None; resp_message := None;
                             resp_error := Some DIMENSIONS_CODE;
                             resp_details := details |} |})
    false.

(** The claim of C8 about success, for a statistics computation. *)
Definition succeeds_on_non_empty_union
    (compute : Matrix -> Matrix -> Outcome MatrixStatistics) : Prop :=
  forall a b : Matrix,
    List.concat a ++ List.concat b <> [] -> exists s, compute a b = Returned s.

(** ** The HTTP boundary *)

(** [const { k } = v] for a key [k] that is not a built-in property:
    reading from [undefined] or [null] throws, only objects have [k]. *)
Definition destructure (k : string) (v : JsValue) : Outcome JsValue :=
  match v with
  | JsUndefined =>
      type_error ("Cannot destructure property '" ++ k ++ "' of 'req.body' as it is undefined.")%string
  | JsNull =>
      type_error ("Cannot destructure property '" ++ k ++ "' of 'req.body' as it is null.")%string
  | JsObject props => Returned (lookup_prop k props)
  | _ => Returned JsUndefined
  end.

(** What the service writes with [res.status(..).json(..)]. *)
Record ErrorJson : Type := mkErrorJson {
  json_error : string;
  json_details : string;
  json_message : option string
}.

Inductive JsonBody : Type :=
| MatrixProcessed (msg : string) (result : ProcessedMatrixResult)
| ErrorBody (e : ErrorJson).

Record HttpReply : Type := mkReply {
  reply_status : Z;
  reply_body : JsonBody
}.

(** A handler either answers or calls [next(error)]. *)
Inductive Handled : Type :=
| Responded (reply : HttpReply)
| Next (error : JsError).

Module MatrixController.

Definition MSG_REQUIRED : string := "Matrix is required in the request body.".
Definition MSG_NOT_ARRAY : string := "Matrix must be an array.".
Definition MSG_MALFORMED : string := "Matrix is empty or malformed.".

(** The three checks of the controller, lines 38-47 of
    matrix.controller.ts. *)
Definition check_body_matrix (matrix : JsValue) : Outcome unit :=
  if negb (truthy matrix) then throw_invalid MSG_REQUIRED
  else if negb (Array_isArray matrix) then throw_invalid MSG_NOT_ARRAY
  else if match length_is matrix 0 with Some b => b | None => true end
          || negb (Array_isArray (index0 matrix))
  then throw_invalid MSG_MALFORMED
  else Returned tt.

(** The [catch (error: any)] block: an [AppError] goes to [next] as it
    is, anything else is wrapped. *)
Definition on_error (error : JsError) : JsError :=
  match error with
  | AppErr e => AppErr e
  | _ =>
      AppErr (new_AppError
                "An unexpected error occurred during matrix processing."
                (Some 500%Z) (Some "INTERNAL_SERVER_ERROR")
                (Some (error_message error)))
  end.

(** [processMatrix(req, res, next)], with [body] the parsed request body. *)
Definition processMatrix (max_arguments : N) (goApiGateway : GoApiGateway)
    (body : JsValue) : Calls -> Handled * Calls :=
  fun calls =>
    match (matrix <- lift (destructure "matrix" body) ;;
           lift (check_body_matrix matrix) ;;;
           ProcessMatrixAndGetStatsUseCase.execute max_arguments goApiGateway
             matrix)%run calls with
    | (Returned result, calls') =>
        (Responded
           {| reply_status := 200;
              reply_body :=
                MatrixProcessed
                  "Matrix processed and statistics generated successfully." result |},
         calls')
    | (Thrown error, calls') => (Next (on_error error), calls')
    end.

End MatrixController.

(** The space character. *)
Definition SPACE : Ascii.ascii := Ascii.ascii_of_nat 32.

(** [String.prototype.split] with a one-character separator. *)
Fixpoint split (sep : Ascii.ascii) (s : string) : list string :=
  match s with
  | EmptyString => [EmptyString]
  | String c rest =>
      if Ascii.eqb c sep then EmptyString :: split sep rest
      else
        match split sep rest with
        | piece :: pieces => String c piece :: pieces
        | [] => [String c EmptyString]
        end
  end.

(** The payload [jwt.verify] decodes, as the middleware casts it. *)
Record User : Type := mkUser { user_id : string; user_username : string }.

(** [jwt.verify] returns the payload or throws an error with a [name]. *)
Inductive VerifyResult : Type :=
| Verified (decoded : User)
| VerifyThrows (name : string).

(** [next()] with [req.user] set, or [next(error)]. *)
Inductive AuthResult : Type :=
| AuthPass (user : User)
| AuthFail (error : AppError).

(** [authMiddleware] of auth.middleware.ts; [jwt.verify] is the library's,
    taken as a parameter. Its first argument is [undefined] ([None]) when
    the header has no second piece. *)
Definition authMiddleware (jwt_verify : option string -> string -> VerifyResult)
    (jwtSecret : string) (authorization : option string) : AuthResult :=
  match authorization with
  | None => AuthFail (UnauthorizedError (Some "No token provided or malformed token."))
  | Some authHeader =>
      if String.eqb authHeader "" || negb (String.prefix "Bearer " authHeader)
      then AuthFail (UnauthorizedError (Some "No token provided or malformed token."))
      else
        let token := nth_error (split SPACE authHeader) 1 in
        match jwt_verify token jwtSecret with
        | Verified decoded => AuthPass decoded
        | VerifyThrows name =>
            if String.eqb name "TokenExpiredError"
            then AuthFail (UnauthorizedError (Some "Token expired. Please log in again."))
            else if String.eqb name "JsonWebTokenError"
            then AuthFail (UnauthorizedError (Some "Invalid token."))
            else AuthFail (UnauthorizedError (Some "Authentication failed."))
        end
  end.

Module App.

(** The error-handling middleware of app.ts, lines 74-90. The spread
    [...(err.details && { message: err.details })] adds [message] only
    for a non-empty [details]. *)
Definition errorHandler (err : JsError) : HttpReply :=
  match err with
  | AppErr e =>
      {| reply_status := statusCode e;
         reply_body :=
           ErrorBody
             {| json_error := errorCode e;
                json_details := message e;
                json_message :=
                  match details e with
                  | Some d => if String.eqb d "" then None else Some d
                  | None => None
                  end |} |}
  | _ =>
      {| reply_status := 500;
         reply_body :=
           ErrorBody
             {| json_error := "INTERNAL_SERVER_ERROR";
                json_details := "An unexpected error occurred.";
                json_message := None |} |}
  end.

(** A handler followed by the error middleware: [next(error)] is
    answered by [errorHandler]. *)
Definition finish (h : Handled) : HttpReply :=
  match h with
  | Responded reply => reply
  | Next error => errorHandler error
  end.

(** POST /api/matrix/process-matrix as [initializeRoutes] and
    [initializeErrorHandling] wire it: [authMiddleware], then the
    controller over the HTTP client, then the error middleware. *)
Definition post_process_matrix (max_arguments : N)
    (jwt_verify : option string -> string -> VerifyResult) (jwtSecret : string)
    (post : JsValue -> GoApiHttpClient.PostResult)
    (authorization : option string) (body : JsValue)
    : Calls -> HttpReply * Calls :=
  fun calls =>
    match authMiddleware jwt_verify jwtSecret authorization with
    | AuthFail error => (errorHandler (AppErr error), calls)
    | AuthPass _ =>
        let (h, calls') :=
          MatrixController.processMatrix max_arguments
            (GoApiHttpClient.processMatrix post) body calls in
        (finish h, calls')
    end.

End App.

(** ** Configuration and the construction of the HTTP client *)

(** [process.env] *)
Definition Env : Type := string -> option string.

Record AppConfig : Type := mkConfig {
  nodeApiPort : float;
  goApiBaseUrl : string;
  goApiAppAccessToken : string;
  jwtSecret : string;
  jwtExpiresIn : string
}.

(** src/config/index.ts; [parseInt] is the built-in, taken as a
    parameter, and [None] is [process.exit(1)]. *)
Definition load_config (parseInt : string -> float) (env : Env) : option AppConfig :=
  let config :=
    {| nodeApiPort := parseInt (or_else (env "NODE_API_PORT") "3000");
       goApiBaseUrl := or_else (env "GO_API_BASE_URL") "http://localhost:8080/api";
       goApiAppAccessToken := or_else (env "GO_API_APP_ACCESS_TOKEN") "";
       jwtSecret := or_else (env "JWT_SECRET") "supersecretjwtkeyforexample";
       jwtExpiresIn := or_else (env "JWT_EXPIRES_IN") "1h" |} in
  if String.eqb (goApiAppAccessToken config) "" then None else Some config.

(** The options [axios.create] is given by the constructor. *)
Record AxiosConfig : Type := mkAxiosConfig {
  baseURL : string;
  header_content_type : string;
  header_authorization : string;
  timeout : Z
}.

(** The constructor of [GoApiHttpClient], lines 18-36. *)
Definition new_GoApiHttpClient (baseURL appAccessToken : string) : Outcome AxiosConfig :=
  if String.eqb baseURL "" then
    Thrown (NativeErr "Error" "GoApiHttpClient: baseURL is required.")
  else if String.eqb appAccessToken "" then
    Thrown (NativeErr "Error" "GoApiHttpClient: appAccessToken is required.")
  else
    Returned {| baseURL := baseURL;
                header_content_type := "application/json";
                header_authorization := ("Bearer " ++ appAccessToken)%string;
                timeout := 10000 |}.

(** The string has no space character. *)
Fixpoint has_no_space (s : string) : bool :=
  match s with
  | EmptyString => true
  | String c rest => negb (Ascii.eqb c SPACE) && has_no_space rest
  end.

(** The texts [authMiddleware] gives its [UnauthorizedError]s. *)
Definition auth_failure_text (text : string) : Prop :=
  text = "No token provided or malformed token."
  \/ text = "Token expired. Please log in again."
  \/ text = "Invalid token."
  \/ text = "Authentication failed.".

(** * Properties *)

(** ** Comparison of numbers *)

Section FloatOrder.
Local Open Scope Z_scope.

Lemma SFcompare_key f1 f2 :
  f1 <> S754_nan -> f2 <> S754_nan ->
  match SFcompare f1 f2 with
  | Some Lt => key_lt (sf_key f1) (sf_key f2)
  | Some Eq => sf_key f1 = sf_key f2
  | Some Gt => key_lt (sf_key f2) (sf_key f1)
  | None => False
  end.
Proof.
  intros H1 H2.
  destruct f1 as [s1|s1| |s1 m1 e1], f2 as [s2|s2| |s2 m2 e2];
    try congruence; try destruct s1; try destruct s2; cbn; try lia; try reflexivity.
  - destruct (Z.compare_spec e1 e2); cbn; try lia.
    change (Pos.compare_cont Eq m1 m2) with (Pos.compare m1 m2).
    destruct (Pos.compare_spec m1 m2); cbn; try lia. subst; reflexivity.
  - destruct (Z.compare_spec e1 e2); cbn; try lia.
    change (Pos.compare_cont Eq m1 m2) with (Pos.compare m1 m2).
    destruct (Pos.compare_spec m1 m2); cbn; try lia. subst; reflexivity.
Qed.
End FloatOrder.

Local Open Scope float_scope.

Lemma not_nan_spec x : PrimFloat.is_nan x = false -> Prim2SF x <> S754_nan.
Proof.
  unfold PrimFloat.is_nan. rewrite FloatAxioms.eqb_spec. intros H E. rewrite E in H. discriminate.
Qed.

Lemma key_trichotomy a b : key_lt a b \/ a = b \/ key_lt b a.
Proof.
  destruct a as [[a1 a2] a3], b as [[b1 b2] b3]; unfold key_lt.
  destruct (Z.lt_trichotomy a1 b1) as [?|[?|?]]; [lia| |lia].
  destruct (Z.lt_trichotomy a2 b2) as [?|[?|?]]; [lia| |lia].
  destruct (Z.lt_trichotomy a3 b3) as [?|[?|?]]; [lia| |lia].
  right; left; congruence.
Qed.

Lemma key_lt_irrefl a : ~ key_lt a a.
Proof. destruct a as [[a1 a2] a3]; unfold key_lt; lia. Qed.

Lemma key_lt_trans a b c : key_lt a b -> key_lt b c -> key_lt a c.
Proof.
  destruct a as [[a1 a2] a3], b as [[b1 b2] b3], c as [[c1 c2] c3];
    unfold key_lt; lia.
Qed.

Lemma key_le_trans a b c : key_le a b -> key_le b c -> key_le a c.
Proof.
  unfold key_le; intros [H1 | ->] [H2 | ->]; auto. left; eauto using key_lt_trans.
Qed.

Section Comparisons.
Variables x y : float.
Hypothesis Hx : PrimFloat.is_nan x = false.
Hypothesis Hy : PrimFloat.is_nan y = false.

Lemma ltb_key : (x <? y) = true <-> key_lt (fkey x) (fkey y).
Proof.
  rewrite FloatAxioms.ltb_spec; unfold SFltb, fkey.
  pose proof (SFcompare_key _ _ (not_nan_spec _ Hx) (not_nan_spec _ Hy)) as H.
  destruct (SFcompare (Prim2SF x) (Prim2SF y)) as [[]|]; try tauto; split;
    try discriminate; intros K; exfalso.
  - rewrite H in K. exact (key_lt_irrefl _ K).
  - exact (key_lt_irrefl _ (key_lt_trans _ _ _ K H)).
Qed.

Lemma eqb_key : (x =? y) = true <-> fkey x = fkey y.
Proof.
  rewrite FloatAxioms.eqb_spec; unfold SFeqb, fkey.
  pose proof (SFcompare_key _ _ (not_nan_spec _ Hx) (not_nan_spec _ Hy)) as H.
  destruct (SFcompare (Prim2SF x) (Prim2SF y)) as [[]|]; try tauto; split;
    try discriminate; intros K; exfalso; rewrite K in H; exact (key_lt_irrefl _ H).
Qed.

Lemma leb_key : (x <=? y) = true <-> key_le (fkey x) (fkey y).
Proof.
  rewrite FloatAxioms.leb_spec; unfold SFleb, fkey, key_le.
  pose proof (SFcompare_key _ _ (not_nan_spec _ Hx) (not_nan_spec _ Hy)) as H.
  destruct (SFcompare (Prim2SF x) (Prim2SF y)) as [[]|]; try tauto; split;
    try discriminate; intros [K|K]; exfalso.
  - exact (key_lt_irrefl _ (key_lt_trans _ _ _ K H)).
  - rewrite K in H; exact (key_lt_irrefl _ H).
Qed.
End Comparisons.

Lemma leb_refl x : PrimFloat.is_nan x = false -> (x <=? x) = true.
Proof. intros H. apply leb_key; auto. right; reflexivity. Qed.

Lemma leb_trans x y z :
  PrimFloat.is_nan x = false -> PrimFloat.is_nan y = false -> PrimFloat.is_nan z = false ->
  (x <=? y) = true -> (y <=? z) = true -> (x <=? z) = true.
Proof.
  intros Hx Hy Hz H1 H2. apply leb_key; auto.
  apply leb_key in H1; auto. apply leb_key in H2; auto.
  eauto using key_le_trans.
Qed.

Lemma ltb_leb x y :
  PrimFloat.is_nan x = false -> PrimFloat.is_nan y = false ->
  (x <? y) = true -> (x <=? y) = true.
Proof.
  intros Hx Hy H. apply leb_key; auto. left. apply ltb_key; auto.
Qed.

Lemma not_ltb_leb x y :
  PrimFloat.is_nan x = false -> PrimFloat.is_nan y = false ->
  (x <? y) = false -> (y <=? x) = true.
Proof.
  intros Hx Hy H. apply leb_key; auto.
  destruct (key_trichotomy (fkey x) (fkey y)) as [K|[K|K]].
  - apply ltb_key in K; auto. congruence.
  - right; auto.
  - left; auto.
Qed.

Lemma SFeqb_refl f : f <> S754_nan -> SFeqb f f = true.
Proof.
  intros H. unfold SFeqb.
  destruct f as [[]|[]| |[] m e]; cbn; try congruence;
    rewrite Z.compare_refl; change (Pos.compare_cont Eq m m) with (Pos.compare m m);
    rewrite Pos.compare_refl; reflexivity.
Qed.

Lemma eqb_not_nan x y : (x =? y) = true -> PrimFloat.is_nan x = false.
Proof.
  unfold PrimFloat.is_nan. rewrite !FloatAxioms.eqb_spec. intros H.
  rewrite SFeqb_refl; [reflexivity|].
  intros E. rewrite E in H. discriminate.
Qed.

Lemma zeros_leb x y :
  PrimFloat.is_zero x = true -> PrimFloat.is_zero y = true -> (x <=? y) = true.
Proof.
  unfold PrimFloat.is_zero. intros Hx Hy.
  pose proof (eqb_not_nan _ _ Hx) as Nx.
  pose proof (eqb_not_nan _ _ Hy) as Ny.
  assert (Nz : PrimFloat.is_nan zero = false) by reflexivity.
  apply leb_key; auto. right.
  apply eqb_key in Hx; auto. apply eqb_key in Hy; auto. congruence.
Qed.



(** ** [Math.max] and [Math.min] *)

Lemma Math_max_from_spec numbers : forall highest,
  PrimFloat.is_nan highest = false -> no_NaN numbers ->
  let r := Math_max_from highest numbers in
  PrimFloat.is_nan r = false
  /\ (r = highest \/ In r numbers)
  /\ (highest <=? r) = true
  /\ forall x, In x numbers -> (x <=? r) = true.
Proof.
  induction numbers as [|number rest IH]; intros highest Hh Hl; cbn.
  - repeat split; auto using leb_refl; intros x [].
  - inversion Hl as [|? ? Hn Hrest]; subst. rewrite Hn.
    set (h1 := if is_pos_zero number && is_neg_zero highest then number else highest).
    set (h2 := if h1 <? number then number else h1).
    assert (N1 : PrimFloat.is_nan h1 = false) by (unfold h1; destruct (_ && _); auto).
    assert (L1 : (highest <=? h1) = true).
    { unfold h1. destruct (is_pos_zero number && is_neg_zero highest) eqn:E.
      - apply andb_prop in E as [E1 E2].
        apply andb_prop in E1 as [E1 _]. apply andb_prop in E2 as [E2 _].
        now apply zeros_leb.
      - now apply leb_refl. }
    assert (M1 : (number <=? h1) = true -> (number <=? h2) = true) by
      (unfold h2; destruct (h1 <? number); auto using leb_refl).
    assert (N2 : PrimFloat.is_nan h2 = false) by (unfold h2; destruct (_ <? _); auto).
    assert (L2 : (h1 <=? h2) = true).
    { unfold h2. destruct (h1 <? number) eqn:E; auto using leb_refl, ltb_leb. }
    assert (A2 : (number <=? h2) = true).
    { unfold h2. destruct (h1 <? number) eqn:E; auto using leb_refl, not_ltb_leb. }
    assert (C2 : h2 = highest \/ h2 = number).
    { unfold h2, h1. destruct (_ <? _); auto. destruct (_ && _); auto. }
    destruct (IH h2 N2 Hrest) as (Nr & Cr & Lr & Ar).
    split; [assumption|]. split; [|split].
    + destruct Cr as [Cr|Cr]; [|auto]. rewrite Cr. destruct C2; auto.
    + eapply leb_trans; [| |exact Nr|exact L1|]; auto.
      eapply leb_trans; [| |exact Nr|exact L2|]; auto.
    + intros x [<-|Hx]; auto.
      eapply leb_trans; [| |exact Nr|exact A2|]; auto.
Qed.

Lemma Math_min_from_spec numbers : forall lowest,
  PrimFloat.is_nan lowest = false -> no_NaN numbers ->
  let r := Math_min_from lowest numbers in
  PrimFloat.is_nan r = false
  /\ (r = lowest \/ In r numbers)
  /\ (r <=? lowest) = true
  /\ forall x, In x numbers -> (r <=? x) = true.
Proof.
  induction numbers as [|number rest IH]; intros lowest Hh Hl; cbn.
  - repeat split; auto using leb_refl; intros x [].
  - inversion Hl as [|? ? Hn Hrest]; subst. rewrite Hn.
    set (l1 := if is_neg_zero number && is_pos_zero lowest then number else lowest).
    set (l2 := if number <? l1 then number else l1).
    assert (N1 : PrimFloat.is_nan l1 = false) by (unfold l1; destruct (_ && _); auto).
    assert (L1 : (l1 <=? lowest) = true).
    { unfold l1. destruct (is_neg_zero number && is_pos_zero lowest) eqn:E.
      - apply andb_prop in E as [E1 E2].
        apply andb_prop in E1 as [E1 _]. apply andb_prop in E2 as [E2 _].
        now apply zeros_leb.
      - now apply leb_refl. }
    assert (N2 : PrimFloat.is_nan l2 = false) by (unfold l2; destruct (_ <? _); auto).
    assert (L2 : (l2 <=? l1) = true).
    { unfold l2. destruct (number <? l1) eqn:E; auto using leb_refl, ltb_leb. }
    assert (A2 : (l2 <=? number) = true).
    { unfold l2. destruct (number <? l1) eqn:E; auto using leb_refl, not_ltb_leb. }
    assert (C2 : l2 = lowest \/ l2 = number).
    { unfold l2, l1. destruct (_ <? _); auto. destruct (_ && _); auto. }
    destruct (IH l2 N2 Hrest) as (Nr & Cr & Lr & Ar).
    split; [assumption|]. split; [|split].
    + destruct Cr as [Cr|Cr]; [|auto]. rewrite Cr. destruct C2; auto.
    + eapply leb_trans; [exact Nr| | |exact Lr|]; auto.
      eapply leb_trans; [exact N2| | |exact L2|]; auto.
    + intros x [<-|Hx]; auto.
      eapply leb_trans; [exact Nr| | |exact Lr|]; auto.
Qed.





(** ** Statistics *)

Lemma concat_rows_concat matrix : forall allValues,
  concat_rows allValues matrix = allValues ++ List.concat matrix.
Proof.
  unfold concat_rows.
  induction matrix as [|row rest IH]; intros allValues; cbn.
  - now rewrite app_nil_r.
  - now rewrite IH, app_assoc.
Qed.

Lemma allValues_concat a b :
  concat_rows (concat_rows [] a) b = List.concat a ++ List.concat b.
Proof. now rewrite !concat_rows_concat. Qed.

Lemma length_eqb_0 {A : Type} (l : list A) :
  Nat.eqb (List.length l) 0 = false <-> l <> [].
Proof.
  destruct l; cbn; split; congruence.
Qed.

Lemma spread_call_fits max_arguments f args :
  fits max_arguments args -> spread_call max_arguments f args = Returned (f args).
Proof.
  unfold fits, spread_call. intros H. apply N.leb_le in H. now rewrite H.
Qed.

Lemma spread_call_overflow max_arguments f args :
  ~ fits max_arguments args -> spread_call max_arguments f args = Thrown range_error.
Proof.
  unfold fits, spread_call. intros H.
  destruct (N.leb_spec (N.of_nat (List.length args)) max_arguments); [contradiction|].
  reflexivity.
Qed.

Lemma statistics_after_guard_fits max_arguments allValues a b :
  fits max_arguments allValues ->
  statistics_after_guard max_arguments allValues a b
  = Returned (statistics_of allValues a b).
Proof.
  intros H. unfold statistics_after_guard. now rewrite !spread_call_fits.
Qed.

Lemma statistics_after_guard_overflow max_arguments allValues a b :
  ~ fits max_arguments allValues ->
  statistics_after_guard max_arguments allValues a b = Thrown range_error.
Proof.
  intros H. unfold statistics_after_guard. now rewrite spread_call_overflow.
Qed.

Lemma fits_dec max_arguments numbers :
  fits max_arguments numbers \/ ~ fits max_arguments numbers.
Proof. unfold fits. lia. Qed.

Lemma calculateMatrixStatistics_returns max_arguments a b :
  List.concat a ++ List.concat b <> [] ->
  fits max_arguments (List.concat a ++ List.concat b) ->
  calculateMatrixStatistics max_arguments a b
  = Returned (statistics_of (List.concat a ++ List.concat b) a b).
Proof.
  intros H F. unfold calculateMatrixStatistics.
  rewrite allValues_concat.
  apply length_eqb_0 in H. rewrite H. now apply statistics_after_guard_fits.
Qed.

Lemma CalculateMatrixStatsUseCase_returns max_arguments a b qr :
  a <> [] -> b <> [] -> List.concat a ++ List.concat b <> [] ->
  fits max_arguments (List.concat a ++ List.concat b) ->
  CalculateMatrixStatsUseCase.execute max_arguments (mkGoData a b qr)
  = Returned (statistics_of (List.concat a ++ List.concat b) a b).
Proof.
  intros Ha Hb H F. unfold CalculateMatrixStatsUseCase.execute.
  cbn [original_matrix rotated_matrix].
  apply length_eqb_0 in Ha, Hb. rewrite Ha, Hb. cbn [orb].
  rewrite allValues_concat.
  apply length_eqb_0 in H. rewrite H. now apply statistics_after_guard_fits.
Qed.



(** ** The diagonal predicate *)

Lemma cell_nonzero_false matrix i j :
  cell_nonzero matrix i j = false
  <-> exists v, cell matrix i j = Some v /\ is_zero_number v.
Proof.
  unfold cell_nonzero, is_zero_number.
  destruct (cell matrix i j) as [v|]; split.
  - intros H. exists v. split; [reflexivity|]. now apply negb_false_iff.
  - intros (w & [= <-] & H). now apply negb_false_iff.
  - discriminate.
  - intros (w & [=] & _).
Qed.

Lemma isDiagonal_spec matrix :
  isDiagonal matrix = true
  <-> square matrix
      /\ forall i j, i < List.length matrix -> j < List.length matrix -> i <> j ->
           exists v, cell matrix i j = Some v /\ is_zero_number v.
Proof.
  unfold isDiagonal, square.
  destruct matrix as [|row0 rest]; [cbn; split; [discriminate|intros [[=] _]]|].
  change (Nat.eqb (List.length (row0 :: rest)) 0) with false.
  cbv beta iota zeta. cbn [first_row_length].
  set (n := List.length (row0 :: rest)).
  destruct (Nat.eqb_spec n (List.length row0)) as [E|E]; cbn [negb].
  - rewrite <- E. split.
    + intros H. split; [reflexivity|]. intros i j Hi Hj Hij.
      rewrite forallb_forall in H.
      specialize (H i ltac:(apply in_seq; lia)).
      rewrite forallb_forall in H.
      specialize (H j ltac:(apply in_seq; lia)).
      apply negb_true_iff, andb_false_iff in H as [H|H].
      * apply negb_false_iff, Nat.eqb_eq in H. contradiction.
      * now apply cell_nonzero_false.
    + intros [_ H]. apply forallb_forall. intros i Hi. apply forallb_forall. intros j Hj.
      apply in_seq in Hi, Hj.
      destruct (Nat.eqb_spec i j) as [->|Hij]; [reflexivity|]. cbn.
      apply negb_true_iff, cell_nonzero_false, H; cbn in *; lia.
  - split; [discriminate|]. intros [[= H] _]. congruence.
Qed.

Lemma cell_Some_rectangular matrix i j :
  rectangular matrix -> square matrix ->
  (i < List.length matrix /\ j < List.length matrix
   <-> exists v, cell matrix i j = Some v).
Proof.
  intros Hrect Hsq. unfold cell. split.
  - intros [Hi Hj].
    destruct (nth_error matrix i) as [row|] eqn:Ei;
      [|apply nth_error_None in Ei; lia].
    pose proof (Hrect row (nth_error_In _ _ Ei)) as Hlen.
    rewrite Hsq in Hlen. injection Hlen as Hlen.
    destruct (nth_error row j) as [v|] eqn:Ej; [now exists v|].
    apply nth_error_None in Ej. lia.
  - intros (v & H).
    destruct (nth_error matrix i) as [row|] eqn:Ei; [|discriminate].
    pose proof (Hrect row (nth_error_In _ _ Ei)) as Hlen.
    rewrite Hsq in Hlen. injection Hlen as Hlen.
    split.
    + apply nth_error_Some. congruence.
    + rewrite <- Hlen. apply nth_error_Some. congruence.
Qed.

(** C4. [isDiagonal] holds exactly when the matrix is square (it has a
    first row whose column count is the row count) and every cell at row
    [i], column [j] of that square grid with [i <> j] is a number equal
    to zero; for a rectangular matrix this says that every off-diagonal
    cell it has is zero. A matrix with zero rows is never diagonal, every
    1x1 matrix is, no non-square matrix is, and the four examples of the
    specification evaluate as stated. *)
Theorem C4_isDiagonal_iff_square_and_zero_off_diagonal :
  (forall matrix : Matrix,
     isDiagonal matrix = true
     <-> square matrix
         /\ forall i j, i < List.length matrix -> j < List.length matrix -> i <> j ->
              exists v, cell matrix i j = Some v /\ is_zero_number v)
  /\ (forall matrix : Matrix,
        rectangular matrix ->
        (isDiagonal matrix = true
         <-> square matrix
             /\ forall i j v, cell matrix i j = Some v -> i <> j -> is_zero_number v))
  /\ isDiagonal [] = false
  /\ (forall x : float, isDiagonal [[x]] = true)
  /\ (forall matrix : Matrix, ~ square matrix -> isDiagonal matrix = false)
  /\ isDiagonal [[5]]%float = true
  /\ isDiagonal [[1; 0]; [0; 2]]%float = true
  /\ isDiagonal [[1; 1]; [0; 2]]%float = false
  /\ isDiagonal [[1; 2; 3]]%float = false.
Proof.
  split; [exact isDiagonal_spec|].
  split.
  { intros matrix Hrect. rewrite isDiagonal_spec. split.
    - intros [Hsq H]. split; [assumption|]. intros i j v Hv Hij.
      destruct (proj2 (cell_Some_rectangular matrix i j Hrect Hsq)) as [Hi Hj];
        [now exists v|].
      destruct (H i j Hi Hj Hij) as (w & Hw & Hz). congruence.
    - intros [Hsq H]. split; [assumption|]. intros i j Hi Hj Hij.
      destruct (proj1 (cell_Some_rectangular matrix i j Hrect Hsq)) as [v Hv];
        [now split|].
      exists v. split; [assumption|]. eapply H; eauto. }
  split; [reflexivity|].
  split; [intros x; reflexivity|].
  split.
  { intros matrix Hsq. destruct (isDiagonal matrix) eqn:E; [|reflexivity].
    apply isDiagonal_spec in E as [E _]. contradiction. }
  repeat split; reflexivity.
Qed.

(** An instance of C4 on the rectangular matrix [[1,0],[0,2]]. *)
Lemma C4_isDiagonal_iff_square_and_zero_off_diagonal_witness :
  isDiagonal [[1; 0]; [0; 2]]%float = true
  <-> square [[1; 0]; [0; 2]]%float
      /\ forall i j v, cell [[1; 0]; [0; 2]]%float i j = Some v -> i <> j ->
           is_zero_number v.
Proof.
  apply (proj1 (proj2 C4_isDiagonal_iff_square_and_zero_off_diagonal)).
  intros row [<-|[<-|[]]]; reflexivity.
Defined.

(** ** Input validation *)

Lemma every_number_spec row : every_number row = true <-> Forall numeric_cell row.
Proof.
  unfold every_number, numeric_cell. rewrite forallb_forall, Forall_forall.
  split; intros H c Hc; apply String.eqb_eq; auto.
Qed.

Lemma every_number_false row :
  (exists c, In c row /\ ~ numeric_cell c) -> every_number row = false.
Proof.
  intros (c & Hc & Hn). destruct (every_number row) eqn:E; [|reflexivity].
  apply every_number_spec in E. rewrite Forall_forall in E. exfalso; auto.
Qed.

Lemma offending_good numCols row :
  offending numCols row = false <-> good_row numCols row.
Proof.
  unfold offending, good_row.
  rewrite orb_false_iff, !negb_false_iff, Nat.eqb_eq, every_number_spec. tauto.
Qed.

(** On an array of arrays the loop throws at the first offending row. *)
Lemma check_rows_arrays numCols rows :
  check_rows numCols (map JsArray rows)
  = match find (offending numCols) rows with
    | None => Returned tt
    | Some row =>
        if Nat.eqb (List.length row) numCols then throw_invalid MSG_NUMBERS
        else throw_invalid MSG_RECTANGULAR
    end.
Proof.
  induction rows as [|row rest IH]; [reflexivity|].
  cbn [map check_rows length_is find]. unfold offending at 1.
  destruct (Nat.eqb (List.length row) numCols) eqn:E; cbn [negb orb];
    [|now rewrite E].
  destruct (every_number row); cbn [negb]; [exact IH|now rewrite E].
Qed.

Lemma validate_matrix_of rows :
  rows <> [] ->
  validate (matrix_of rows) = check_rows (numCols_of rows) (map JsArray rows).
Proof.
  destruct rows as [|row0 rest]; [congruence|]. reflexivity.
Qed.

Lemma find_first {A : Type} (f : A -> bool) pre x post :
  Forall (fun y => f y = false) pre -> f x = true ->
  find f (pre ++ x :: post) = Some x.
Proof.
  induction 1 as [|y pre Hy _ IH]; intros Hx; cbn.
  - now rewrite Hx.
  - rewrite Hy. auto.
Qed.

Lemma find_all_false {A : Type} (f : A -> bool) l :
  Forall (fun y => f y = false) l -> find f l = None.
Proof.
  induction 1 as [|y l Hy _ IH]; cbn; [reflexivity|]. now rewrite Hy.
Qed.

Lemma good_rows_not_offending numCols rows :
  Forall (good_row numCols) rows -> Forall (fun y => offending numCols y = false) rows.
Proof.
  apply Forall_impl. intros row. apply offending_good.
Qed.

Lemma validate_first_ragged pre row post :
  let rows := pre ++ row :: post in
  Forall (good_row (numCols_of rows)) pre ->
  List.length row <> numCols_of rows ->
  validate (matrix_of rows) = throw_invalid MSG_RECTANGULAR.
Proof.
  intros rows Hpre Hlen.
  rewrite validate_matrix_of by (unfold rows; destruct pre; discriminate).
  rewrite check_rows_arrays. unfold rows at 2.
  rewrite find_first.
  - apply Nat.eqb_neq in Hlen. now rewrite Hlen.
  - now apply good_rows_not_offending.
  - unfold offending. apply Nat.eqb_neq in Hlen. now rewrite Hlen.
Qed.

Lemma validate_first_non_numeric pre row post :
  let rows := pre ++ row :: post in
  Forall (good_row (numCols_of rows)) pre ->
  List.length row = numCols_of rows ->
  (exists c, In c row /\ ~ numeric_cell c) ->
  validate (matrix_of rows) = throw_invalid MSG_NUMBERS.
Proof.
  intros rows Hpre Hlen Hc.
  rewrite validate_matrix_of by (unfold rows; destruct pre; discriminate).
  rewrite check_rows_arrays. unfold rows at 2.
  rewrite find_first.
  - apply Nat.eqb_eq in Hlen. now rewrite Hlen.
  - now apply good_rows_not_offending.
  - unfold offending. rewrite (every_number_false _ Hc). apply orb_true_r.
Qed.

Lemma validate_good rows :
  rows <> [] -> Forall (good_row (numCols_of rows)) rows ->
  validate (matrix_of rows) = Returned tt.
Proof.
  intros Hne H. rewrite validate_matrix_of by assumption.
  rewrite check_rows_arrays, find_all_false; [reflexivity|].
  now apply good_rows_not_offending.
Qed.

Lemma validate_empty_or_malformed matrix :
  truthy matrix = false \/ matrix = JsArray [] \/ Array_isArray (index0 matrix) = false ->
  validate matrix = throw_invalid MSG_EMPTY.
Proof.
  intros H. unfold validate.
  assert (E : empty_or_malformed matrix = true).
  { unfold empty_or_malformed. destruct H as [H|[->|H]].
    - now rewrite H.
    - reflexivity.
    - rewrite H. cbn. apply orb_true_r. }
  now rewrite E.
Qed.

Lemma check_rows_returned numCols items :
  check_rows numCols items = Returned tt ->
  exists rows, items = map JsArray rows /\ Forall (good_row numCols) rows.
Proof.
  induction items as [|row rest IH]; cbn.
  - intros _. exists []. split; [reflexivity|constructor].
  - destruct (length_is row numCols) as [[]|] eqn:L;
      unfold throw_invalid, type_error; try discriminate.
    destruct row as [| | | | |cells|]; try discriminate.
    destruct (every_number cells) eqn:E; try discriminate.
    intros H. destruct (IH H) as (rows & -> & Hrows).
    exists (cells :: rows). split; [reflexivity|].
    constructor; [|assumption]. split.
    + cbn in L. injection L as L. now apply Nat.eqb_eq.
    + now apply every_number_spec.
Qed.

Lemma validate_returned matrix :
  validate matrix = Returned tt ->
  exists rows,
    matrix = matrix_of rows /\ rows <> []
    /\ Forall (good_row (numCols_of rows)) rows.
Proof.
  unfold validate.
  destruct (empty_or_malformed matrix) eqn:E;
    unfold throw_invalid, type_error; [discriminate|].
  destruct matrix as [| | | | |items|]; try discriminate.
  intros H.
  destruct (check_rows_returned _ _ H) as (rows & -> & Hrows).
  exists rows. split; [reflexivity|].
  destruct rows as [|row0 rest]; [discriminate|].
  split; [discriminate|exact Hrows].
Qed.

Lemma offending_row_throws numCols rows :
  (exists row, In row rows /\ offending numCols row = true) ->
  exists details,
    check_rows numCols (map JsArray rows) = throw_invalid details
    /\ (details = MSG_RECTANGULAR \/ details = MSG_NUMBERS).
Proof.
  intros (row & Hin & Hoff). rewrite check_rows_arrays.
  destruct (find (offending numCols) rows) as [r|] eqn:F.
  - destruct (Nat.eqb (List.length r) numCols); eauto.
  - rewrite (List.find_none _ _ F row Hin) in Hoff. discriminate.
Qed.

(** C2, counterexample. [[1,'a'],[3,4,5]] has a row longer than the first
    and a non-numeric cell, and is rejected as non-numeric: the first row
    fails its cell check before the second row's length is looked at. *)
Lemma C2_counterexample_non_numeric_row_first : ~ ragged_always_wins.
Proof.
  intros H.
  specialize (H [[JsNumber 1; JsString "a"]; [JsNumber 3; JsNumber 4; JsNumber 5]]).
  assert (E : validate
                (matrix_of [[JsNumber 1; JsString "a"];
                            [JsNumber 3; JsNumber 4; JsNumber 5]])
              = throw_invalid MSG_NUMBERS) by reflexivity.
  rewrite E in H. clear E.
  assert (K : @throw_invalid unit MSG_NUMBERS = throw_invalid MSG_RECTANGULAR);
    [|discriminate K].
  apply H.
  - exists [JsNumber 3; JsNumber 4; JsNumber 5]. split; [cbn; auto|cbn; lia].
  - exists [JsNumber 1; JsString "a"], (JsString "a").
    split; [cbn; auto|]. split; [cbn; auto|]. unfold numeric_cell; cbn. discriminate.
Qed.

(** C2, as implemented. The emptiness check comes first and short-circuits the
    loop; inside the loop the rows are taken in order and each row has its
    length checked before its cells, so the first row that fails either
    check decides the error: "not rectangular" when it is a row whose
    length differs from the first row's, "non-numeric" when it has the
    right length and a cell that is not a number. A matrix with both
    defects is therefore rejected as "not rectangular" only when no row
    before its first ragged row has a non-numeric cell. *)
Theorem C2_first_offending_row_decides :
  (forall matrix,
     truthy matrix = false \/ matrix = JsArray []
     \/ Array_isArray (index0 matrix) = false ->
     validate matrix = throw_invalid MSG_EMPTY)
  /\ (forall pre row post,
        let rows := pre ++ row :: post in
        Forall (good_row (numCols_of rows)) pre ->
        List.length row <> numCols_of rows ->
        validate (matrix_of rows) = throw_invalid MSG_RECTANGULAR)
  /\ (forall pre row post,
        let rows := pre ++ row :: post in
        Forall (good_row (numCols_of rows)) pre ->
        List.length row = numCols_of rows ->
        (exists c, In c row /\ ~ numeric_cell c) ->
        validate (matrix_of rows) = throw_invalid MSG_NUMBERS)
  /\ (forall rows,
        rows <> [] -> Forall (good_row (numCols_of rows)) rows ->
        validate (matrix_of rows) = Returned tt).
Proof.
  split; [exact validate_empty_or_malformed|].
  split; [exact validate_first_ragged|].
  split; [exact validate_first_non_numeric|exact validate_good].
Qed.

(** An instance of C2: in [[1,2],[3,4,5],[6,'a']] the ragged row comes
    first, and the error is "not rectangular". *)
Lemma C2_first_offending_row_decides_witness :
  validate
    (matrix_of ([[JsNumber 1; JsNumber 2]]
                ++ [JsNumber 3; JsNumber 4; JsNumber 5]
                   :: [[JsNumber 6; JsString "a"]]))
  = throw_invalid MSG_RECTANGULAR.
Proof.
  apply (proj1 (proj2 C2_first_offending_row_decides)
           [[JsNumber 1; JsNumber 2]] [JsNumber 3; JsNumber 4; JsNumber 5]
           [[JsNumber 6; JsString "a"]]).
  - constructor; [|constructor]. split; [reflexivity|].
    repeat constructor.
  - cbn. lia.
Defined.

(** C7, counterexample. [[NaN]] has a cell that is not a finite number and
    passes validation: the check is [typeof item === 'number']. *)
Lemma C7_counterexample_NaN_accepted : ~ non_finite_cell_rejected.
Proof.
  intros H. specialize (H [[JsNumber nan]]).
  assert (E : validate (matrix_of [[JsNumber nan]]) = Returned tt) by reflexivity.
  rewrite E in H. clear E.
  assert (K : Returned tt = throw_invalid MSG_NUMBERS); [|discriminate K].
  apply H. exists [JsNumber nan], (JsNumber nan).
  split; [cbn; auto|]. split; [cbn; auto|].
  intros (x & [= <-] & Hx). vm_compute in Hx. discriminate.
Qed.

(** C7, as implemented. Validation succeeds only on a non-empty array of arrays
    of equal length all of whose cells have type number, a type that
    includes NaN, Infinity and -Infinity; and every such matrix that has a
    cell of another type is rejected with the non-numeric error when its
    rows have equal lengths (a ragged row met first is reported
    instead). *)
Theorem C7_only_typeof_number_accepted :
  (forall matrix,
     validate matrix = Returned tt ->
     exists rows,
       matrix = matrix_of rows /\ rows <> []
       /\ forall row c, In row rows -> In c row -> numeric_cell c)
  /\ (forall rows,
        rows <> [] ->
        (forall row, In row rows -> List.length row = numCols_of rows) ->
        has_non_numeric_cell rows ->
        validate (matrix_of rows) = throw_invalid MSG_NUMBERS)
  /\ validate (matrix_of [[JsNumber nan; JsNumber infinity; JsNumber neg_infinity]])
     = Returned tt.
Proof.
  split; [|split].
  - intros matrix H.
    destruct (validate_returned _ H) as (rows & -> & Hne & Hgood).
    exists rows. split; [reflexivity|]. split; [assumption|].
    intros row c Hrow Hc. rewrite Forall_forall in Hgood.
    destruct (Hgood row Hrow) as [_ Hcells]. rewrite Forall_forall in Hcells. auto.
  - intros rows Hne Hrect Hbad.
    rewrite validate_matrix_of by assumption. rewrite check_rows_arrays.
    destruct (find (offending (numCols_of rows)) rows) as [r|] eqn:F.
    + apply find_some in F as [Hin _].
      apply Hrect, Nat.eqb_eq in Hin. now rewrite Hin.
    + destruct Hbad as (row & c & Hrow & Hc & Hn).
      pose proof (List.find_none _ _ F row Hrow) as Hoff.
      apply offending_good in Hoff as [_ Hcells].
      rewrite Forall_forall in Hcells. exfalso; auto.
  - reflexivity.
Qed.

(** An instance of C7: [[1,2],[3,'a']] is rectangular and has a cell that
    is not a number. *)
Lemma C7_only_typeof_number_accepted_witness :
  validate (matrix_of [[JsNumber 1; JsNumber 2]; [JsNumber 3; JsString "a"]])
  = throw_invalid MSG_NUMBERS.
Proof.
  apply (proj1 (proj2 C7_only_typeof_number_accepted)).
  - discriminate.
  - intros row [<-|[<-|[]]]; reflexivity.
  - exists [JsNumber 3; JsString "a"], (JsString "a").
    split; [cbn; auto|]. split; [cbn; auto|]. unfold numeric_cell; cbn. discriminate.
Defined.

(** ** Orchestration *)

Import ProcessMatrixAndGetStatsUseCase.

Lemma execute_invalid max_arguments goApiGateway matrix calls error :
  validate matrix = Thrown error ->
  execute max_arguments goApiGateway matrix calls = (Thrown error, calls).
Proof.
  intros H. unfold execute, bind, lift. now rewrite H.
Qed.

Lemma execute_rejected max_arguments goApiGateway matrix calls error :
  validate matrix = Returned tt ->
  goApiGateway matrix = Thrown error ->
  execute max_arguments goApiGateway matrix calls
  = (Thrown (AppErr (on_gateway_error error)), calls ++ [matrix]).
Proof.
  intros Hv Hg.
  unfold execute, bind, lift, try_catch, call_processMatrix. now rewrite Hv, Hg.
Qed.

Lemma execute_resolved max_arguments goApiGateway matrix calls goResult :
  validate matrix = Returned tt ->
  goApiGateway matrix = Returned goResult ->
  execute max_arguments goApiGateway matrix calls
  = (match calculateMatrixStatistics max_arguments (original_matrix goResult)
             (rotated_matrix goResult) with
     | Returned statistics =>
         Returned {| originalMatrix := original_matrix goResult;
                     rotatedMatrix := rotated_matrix goResult;
                     qrFactorization := qr_factorization goResult;
                     statistics := statistics |}
     | Thrown error => Thrown error
     end, calls ++ [matrix]).
Proof.
  intros Hv Hg.
  unfold execute, bind, lift, try_catch, call_processMatrix, ret. rewrite Hv, Hg.
  now destruct (calculateMatrixStatistics _ _ _).
Qed.

Lemma invalid_input_throws matrix :
  invalid_input matrix ->
  exists details, validate matrix = throw_invalid details.
Proof.
  intros [H|[H|[H|(rows & -> & Hne & H)]]].
  - exists MSG_EMPTY. apply validate_empty_or_malformed. auto.
  - exists MSG_EMPTY. apply validate_empty_or_malformed. auto.
  - exists MSG_EMPTY. apply validate_empty_or_malformed. auto.
  - rewrite validate_matrix_of by assumption.
    destruct (offending_row_throws (numCols_of rows) rows) as (details & E & _);
      [|now exists details].
    destruct H as [(row & Hin & Hlen)|(row & c & Hin & Hc & Hn)];
      exists row; (split; [assumption|]); unfold offending.
    + apply Nat.eqb_neq in Hlen. now rewrite Hlen.
    + rewrite (every_number_false row); [apply orb_true_r|eauto].
Qed.

(** Inputs that are absent, have no rows, have a first row that is not an
    array, or are arrays of arrays with a ragged row or a non-numeric
    cell make [execute] throw what [InvalidMatrixError] builds, without a
    gateway call. *)
Lemma invalid_input_never_reaches_gateway max_arguments goApiGateway matrix :
  invalid_input matrix ->
  exists details,
    execute max_arguments goApiGateway matrix []
    = (Thrown (AppErr (InvalidMatrixError (Some details))), []).
Proof.
  intros H. destruct (invalid_input_throws matrix H) as (details & E).
  exists details. now apply execute_invalid.
Qed.

(** C5. On the input [[1,2], null], which fails validation, [execute]
    does not throw an [InvalidMatrixError]: reading [row.length] of the
    second row throws a native [TypeError], which leaves [execute] as it
    is. The gateway is not called. *)
Theorem C5_null_row_throws_TypeError_not_InvalidMatrixError :
  forall max_arguments goApiGateway,
    execute max_arguments goApiGateway matrix_with_null_row []
    = (Thrown (NativeErr "TypeError"
                 "Cannot read properties of null (reading 'length')"), [])
    /\ forall e : AppError,
         fst (execute max_arguments goApiGateway matrix_with_null_row [])
         <> Thrown (AppErr e).
Proof.
  intros max_arguments goApiGateway.
  assert (E : execute max_arguments goApiGateway matrix_with_null_row []
              = (Thrown (NativeErr "TypeError"
                           "Cannot read properties of null (reading 'length')"), []))
    by (now apply execute_invalid).
  split; [exact E|]. intros e. rewrite E. cbn [fst]. discriminate.
Qed.

Lemma on_gateway_error_dimensions msg body request :
  resp_error body = Some DIMENSIONS_CODE ->
  on_gateway_error
    (AxiosErr msg (Some {| status := 400; data := Some body |}) request)
  = InvalidMatrixError
      (Some (or_else (resp_details body)
               "Las dimensiones de la matriz son inválidas según la API de Go.")).
Proof.
  intros H. unfold on_gateway_error. cbn. now rewrite H.
Qed.

(** A backend 400 with the dimension code is re-thrown as an
    [InvalidMatrixError] built from the backend's details, or from the
    fallback text when they are missing or empty. *)
Lemma execute_dimension_error max_arguments goApiGateway matrix msg body request :
  validate matrix = Returned tt ->
  goApiGateway matrix
  = Thrown (AxiosErr msg (Some {| status := 400; data := Some body |}) request) ->
  resp_error body = Some DIMENSIONS_CODE ->
  execute max_arguments goApiGateway matrix []
  = (Thrown (AppErr (InvalidMatrixError
                       (Some (or_else (resp_details body)
                                "Las dimensiones de la matriz son inválidas según la API de Go.")))),
     [matrix]).
Proof.
  intros Hv Hg Hc. rewrite (execute_rejected _ _ _ _ _ Hv Hg).
  now rewrite on_gateway_error_dimensions.
Qed.

(** C1. On the valid matrix [[1]], with a gateway that fails with status
    400, code 'dimensiones_de_matriz_invalidas' and details 'La matriz
    debe ser cuadrada.', [execute] throws, after one gateway call, the
    error [new InvalidMatrixError('La matriz debe ser cuadrada.')]
    builds: its [message] is the fixed 'Invalid matrix provided.' and the
    backend text is in [details]. *)
Theorem C1_dimension_error_text_lands_in_details :
  forall max_arguments,
  exists e,
    execute max_arguments
      (fun _ => Thrown (dimension_error (Some "La matriz debe ser cuadrada.")))
      (matrix_of [[JsNumber 1]]) []
    = (Thrown (AppErr e), [matrix_of [[JsNumber 1]]])
    /\ e = InvalidMatrixError (Some "La matriz debe ser cuadrada.")
    /\ errorCode e = "INVALID_MATRIX"
    /\ message e = "Invalid matrix provided."
    /\ message e <> "La matriz debe ser cuadrada."
    /\ details e = Some "La matriz debe ser cuadrada.".
Proof.
  intros max_arguments. eexists. split; [reflexivity|]. cbn. repeat split. discriminate.
Qed.

Lemma on_gateway_error_with_response msg response request :
  status response <> 0%Z ->
  (status response = 400%Z ->
   opt_field (data response) resp_error <> Some DIMENSIONS_CODE) ->
  on_gateway_error (AxiosErr msg (Some response) request)
  = GoApiError
      (Some (or_else (opt_field (data response) resp_details)
               ("Error de la API de Go con estado "
                ++ string_of_status (status response) ++ ".")%string))
      (Some (or_else (opt_field (data response) resp_error) "GO_API_ERROR"))
      (Some (status response)).
Proof.
  intros H0 H400. unfold on_gateway_error. cbn [error_response].
  apply Z.eqb_neq in H0. rewrite H0.
  destruct (Z.eqb_spec (status response) 400) as [E|E]; cbn [andb]; [|reflexivity].
  destruct (is_string (opt_field (data response) resp_error) DIMENSIONS_CODE) eqn:S;
    [|reflexivity].
  exfalso. apply (H400 E).
  destruct (opt_field (data response) resp_error) as [code|]; cbn in S;
    [|discriminate].
  apply String.eqb_eq in S. now subst.
Qed.

Lemma on_gateway_error_without_response error :
  error_response error = None ->
  on_gateway_error error
  = GoApiError
      (Some ("Fallo al conectar o error desconocido de la API de Go: "
             ++ error_message error)%string)
      (Some "NETWORK_ERROR") None.
Proof.
  intros H. unfold on_gateway_error. now rewrite H.
Qed.

(** C6. For a valid matrix, [execute] calls [processMatrix] once and:
    when the failure carries a response, the error thrown is what
    [new GoApiError(message, code, status)] builds with the status of
    that response, whatever it is, so a 500 stays a 500; when the
    failure is an [AppError] with status 500 (what the HTTP client
    builds), the error thrown is what [new GoApiError(message,
    'NETWORK_ERROR')] builds, whose status is the constructor's default,
    500 again. So does a 500 response through the HTTP client. *)
Theorem C6_status_500_raises_GoApiError_after_one_call :
  forall max_arguments,
    (forall goApiGateway matrix msg response request,
       validate matrix = Returned tt ->
       goApiGateway matrix = Thrown (AxiosErr msg (Some response) request) ->
       status response <> 0%Z ->
       (status response = 400%Z ->
        opt_field (data response) resp_error <> Some DIMENSIONS_CODE) ->
       exists text code,
         execute max_arguments goApiGateway matrix []
         = (Thrown (AppErr (GoApiError (Some text) (Some code)
                              (Some (status response)))),
            [matrix])
         /\ statusCode (GoApiError (Some text) (Some code) (Some (status response)))
            = status response
         /\ errorCode (GoApiError (Some text) (Some code) (Some (status response)))
            = "GO_API_ERROR")
    /\ (forall goApiGateway matrix e,
          validate matrix = Returned tt ->
          goApiGateway matrix = Thrown (AppErr e) ->
          statusCode e = 500%Z ->
          exists text,
            execute max_arguments goApiGateway matrix []
            = (Thrown (AppErr (GoApiError (Some text) (Some "NETWORK_ERROR") None)),
               [matrix])
            /\ statusCode (GoApiError (Some text) (Some "NETWORK_ERROR") None)
               = statusCode e)
    /\ (forall post matrix msg body request,
          validate matrix = Returned tt ->
          post matrix
          = GoApiHttpClient.Failed msg (Some {| status := 500; data := Some body |})
              request ->
          exists text,
            execute max_arguments (GoApiHttpClient.processMatrix post) matrix []
            = (Thrown (AppErr (GoApiError (Some text) (Some "NETWORK_ERROR") None)),
               [matrix])
            /\ statusCode (GoApiError (Some text) (Some "NETWORK_ERROR") None)
               = 500%Z).
Proof.
  intros max_arguments. split; [|split].
  - intros goApiGateway matrix msg response request Hv Hg H0 H400.
    do 2 eexists. split; [|split; reflexivity].
    rewrite (execute_rejected _ _ _ _ _ Hv Hg).
    now rewrite on_gateway_error_with_response.
  - intros goApiGateway matrix e Hv Hg Hs.
    eexists. split.
    + rewrite (execute_rejected _ _ _ _ _ Hv Hg).
      now rewrite on_gateway_error_without_response.
    + now rewrite Hs.
  - intros post matrix msg body request Hv Hp.
    eexists. split; [|reflexivity].
    rewrite (execute_rejected _ _ _ _
               (GoApiHttpClient.interceptor msg
                  (Some {| status := 500; data := Some body |}) request) Hv).
    + reflexivity.
    + unfold GoApiHttpClient.processMatrix. now rewrite Hp.
Qed.

(** An instance of C6: the matrix [[1]] and a gateway rejecting with an
    Axios error whose response has status 500. *)
Lemma C6_status_500_raises_GoApiError_after_one_call_witness :
  exists text code,
    execute 125000
      (fun _ => Thrown (AxiosErr "Request failed with status code 500"
                          (Some {| status := 500; data := None |}) true))
      (matrix_of [[JsNumber 1]]) []
    = (Thrown (AppErr (GoApiError (Some text) (Some code) (Some 500%Z))),
       [matrix_of [[JsNumber 1]]])
    /\ statusCode (GoApiError (Some text) (Some code) (Some 500%Z)) = 500%Z
    /\ errorCode (GoApiError (Some text) (Some code) (Some 500%Z)) = "GO_API_ERROR".
Proof.
  apply (proj1 (C6_status_500_raises_GoApiError_after_one_call 125000)
           (fun _ => Thrown (AxiosErr "Request failed with status code 500"
                               (Some {| status := 500; data := None |}) true))
           (matrix_of [[JsNumber 1]]) "Request failed with status code 500"
           {| status := 500; data := None |} true).
  - reflexivity.
  - reflexivity.
  - discriminate.
  - discriminate.
Defined.

(** C9. On the valid matrix [[1]], with the HTTP client over a transport
    that gets no response (a timeout), [execute] throws, after one call,
    the error [new GoApiError(message, 'NETWORK_ERROR')] builds: its
    [errorCode] is 'GO_API_ERROR', and 'NETWORK_ERROR' is in [details],
    where the second constructor argument goes. *)
Theorem C9_network_error_code_lands_in_details :
  forall max_arguments,
  exists e,
    execute max_arguments
      (GoApiHttpClient.processMatrix
         (fun _ => GoApiHttpClient.Failed "timeout of 10000ms exceeded" None true))
      (matrix_of [[JsNumber 1]]) []
    = (Thrown (AppErr e), [matrix_of [[JsNumber 1]]])
    /\ e = GoApiError
             (Some "Fallo al conectar o error desconocido de la API de Go: No response received from Go API. It might be down or unreachable.")
             (Some "NETWORK_ERROR") None
    /\ errorCode e = "GO_API_ERROR"
    /\ errorCode e <> "NETWORK_ERROR"
    /\ details e = Some "NETWORK_ERROR".
Proof.
  intros max_arguments. eexists. split; [reflexivity|]. cbn. repeat split. discriminate.
Qed.

(** ** Every [InvalidMatrixError] of the core *)

Lemma check_rows_thrown numCols items error :
  check_rows numCols items = Thrown error ->
  (exists text, error = AppErr (InvalidMatrixError (Some text))
                /\ (text = MSG_RECTANGULAR \/ text = MSG_NUMBERS))
  \/ exists msg, error = NativeErr "TypeError" msg.
Proof.
  induction items as [|row rest IH]; cbn; [discriminate|].
  destruct (length_is row numCols) as [[]|];
    unfold throw_invalid, type_error.
  - destruct row as [| | | | |cells|]; try (intros [= <-]; right; eauto; fail).
    destruct (every_number cells); [exact IH|].
    intros [= <-]. left. eauto.
  - intros [= <-]. left. eauto.
  - intros [= <-]. right. eauto.
Qed.

Lemma validate_thrown matrix error :
  validate matrix = Thrown error ->
  (exists text, error = AppErr (InvalidMatrixError (Some text))
                /\ (text = MSG_EMPTY \/ text = MSG_RECTANGULAR \/ text = MSG_NUMBERS))
  \/ exists msg, error = NativeErr "TypeError" msg.
Proof.
  unfold validate. destruct (empty_or_malformed matrix).
  - intros [= <-]. left. eauto.
  - destruct matrix as [| | | | |items|];
      try (intros [= <-]; right; eauto; fail).
    intros H. apply check_rows_thrown in H as [(text & -> & H)|H]; [left|right; auto].
    exists text. tauto.
Qed.

Lemma statistics_after_guard_thrown max_arguments allValues a b error :
  statistics_after_guard max_arguments allValues a b = Thrown error ->
  error = range_error /\ ~ fits max_arguments allValues.
Proof.
  destruct (fits_dec max_arguments allValues) as [F|F].
  - now rewrite statistics_after_guard_fits.
  - rewrite statistics_after_guard_overflow by assumption. now intros [= <-].
Qed.

Lemma calculateMatrixStatistics_thrown max_arguments a b error :
  calculateMatrixStatistics max_arguments a b = Thrown error ->
  error = AppErr (InvalidMatrixError (Some MSG_NO_VALUES))
  \/ (error = range_error
      /\ ~ fits max_arguments (List.concat a ++ List.concat b)).
Proof.
  unfold calculateMatrixStatistics. rewrite allValues_concat.
  destruct (Nat.eqb _ 0); [intros [= <-]; now left|].
  intros H. right. now apply statistics_after_guard_thrown in H.
Qed.

Lemma on_gateway_error_invalid error :
  errorCode (on_gateway_error error) = "INVALID_MATRIX" ->
  exists response,
    error_response error = Some response
    /\ status response = 400%Z
    /\ opt_field (data response) resp_error = Some DIMENSIONS_CODE
    /\ on_gateway_error error
       = InvalidMatrixError
           (Some (or_else (opt_field (data response) resp_details)
                    "Las dimensiones de la matriz son inválidas según la API de Go.")).
Proof.
  unfold on_gateway_error.
  destruct (error_response error) as [response|]; [|discriminate].
  destruct (Z.eqb (status response) 0); [discriminate|].
  destruct (Z.eqb_spec (status response) 400) as [E|E]; [|discriminate].
  cbn [andb].
  destruct (opt_field (data response) resp_error) as [code|] eqn:C; [|discriminate].
  cbn [is_string]. destruct (String.eqb_spec code DIMENSIONS_CODE) as [->|N];
    [|discriminate].
  intros _. exists response. auto.
Qed.

(** C10. The constructor gives every [InvalidMatrixError] the message
    'Invalid matrix provided.', status 400 and code 'INVALID_MATRIX', and
    keeps its argument in [details]. Every error with that code thrown by
    [execute] is built by it from a descriptive text: one of the three
    validation texts, the backend's details (or the fallback) for a 400
    with the dimension code, or the text of the empty-statistics guard;
    likewise every [AppError] thrown by
    [CalculateMatrixStatsUseCase.execute]. *)
Theorem C10_InvalidMatrixError_fixed_message_text_in_details :
  forall max_arguments,
    (forall text : option string,
       let e := InvalidMatrixError text in
       message e = "Invalid matrix provided."
       /\ statusCode e = 400%Z
       /\ errorCode e = "INVALID_MATRIX"
       /\ details e = text)
    /\ (forall goApiGateway matrix calls e,
          fst (execute max_arguments goApiGateway matrix calls) = Thrown (AppErr e) ->
          errorCode e = "INVALID_MATRIX" ->
          exists text,
            e = InvalidMatrixError (Some text)
            /\ (text = MSG_EMPTY \/ text = MSG_RECTANGULAR \/ text = MSG_NUMBERS
                \/ text = MSG_NO_VALUES
                \/ exists error response,
                     goApiGateway matrix = Thrown error
                     /\ error_response error = Some response
                     /\ text = or_else (opt_field (data response) resp_details)
                                 "Las dimensiones de la matriz son inválidas según la API de Go."))
    /\ (forall data e,
          CalculateMatrixStatsUseCase.execute max_arguments data = Thrown (AppErr e) ->
          exists text,
            e = InvalidMatrixError (Some text)
            /\ (text = CalculateMatrixStatsUseCase.MSG_EMPTY_MATRICES
                \/ text = MSG_NO_VALUES)).
Proof.
  intros max_arguments.
  split; [intros text; cbn; repeat split|]. split.
  - intros goApiGateway matrix calls e H Hc.
    destruct (validate matrix) as [[]|verr] eqn:Hv.
    + destruct (goApiGateway matrix) as [goResult|gerr] eqn:Hg.
      * rewrite (execute_resolved _ _ _ _ _ Hv Hg) in H. cbn [fst] in H.
        destruct (calculateMatrixStatistics _ _ _) as [st|serr] eqn:Hs; [discriminate|].
        apply calculateMatrixStatistics_thrown in Hs as [->|[-> _]];
          [|discriminate H].
        injection H as <-. exists MSG_NO_VALUES. tauto.
      * rewrite (execute_rejected _ _ _ _ _ Hv Hg) in H. cbn [fst] in H.
        injection H as <-.
        destruct (on_gateway_error_invalid _ Hc) as (response & Hr & _ & _ & E).
        eexists. split; [exact E|]. do 4 right. eauto.
    + rewrite (execute_invalid _ _ _ _ _ Hv) in H. cbn [fst] in H.
      injection H as ->.
      apply validate_thrown in Hv as [(text & [= ->] & Ht)|(msg & [=])].
      exists text. tauto.
  - intros d e. unfold CalculateMatrixStatsUseCase.execute.
    destruct (_ || _).
    + intros [= <-]. eexists. split; [reflexivity|]. now left.
    + destruct (Nat.eqb _ 0).
      * intros [= <-]. eexists. split; [reflexivity|]. now right.
      * intros H. apply statistics_after_guard_thrown in H as [H _]. discriminate H.
Qed.

(** An instance of C10: the empty matrix. *)
Lemma C10_InvalidMatrixError_fixed_message_text_in_details_witness :
  exists text,
    InvalidMatrixError (Some MSG_EMPTY) = InvalidMatrixError (Some text)
    /\ (text = MSG_EMPTY \/ text = MSG_RECTANGULAR \/ text = MSG_NUMBERS
        \/ text = MSG_NO_VALUES
        \/ exists error response,
             Returned (mkGoData [] [] (mkQR [] [])) = Thrown error
             /\ error_response error = Some response
             /\ text = or_else (opt_field (data response) resp_details)
                         "Las dimensiones de la matriz son inválidas según la API de Go.").
Proof.
  apply (proj1 (proj2 (C10_InvalidMatrixError_fixed_message_text_in_details 125000))
           (fun _ => Returned (mkGoData [] [] (mkQR [] []))) (JsArray []) []
           (InvalidMatrixError (Some MSG_EMPTY)));
    reflexivity.
Defined.

(** ** The empty-statistics guard *)

(** C8, counterexample. [CalculateMatrixStatsUseCase.execute] rejects the
    pair [[1]], [] although their cells are not empty: its first guard
    throws when either matrix has zero rows. *)
Lemma C8_counterexample_standalone_rejects_zero_rows :
  ~ succeeds_on_non_empty_union
      (fun a b =>
         CalculateMatrixStatsUseCase.execute 125000 (mkGoData a b (mkQR [] []))).
Proof.
  intros H. destruct (H [[1%float]] []) as (s & Hs).
  - discriminate.
  - vm_compute in Hs. discriminate.
Qed.

(** C8, as implemented. [calculateMatrixStatistics], the computation
    [execute] uses, throws what [InvalidMatrixError] builds from the text
    'No numeric values found in matrices to calculate statistics.' when
    the two matrices have no cell at all, and returns whenever they have
    one and the cells can be spread into one call of [Math.max].
    [CalculateMatrixStatsUseCase.execute] has one more guard: it throws
    an [InvalidMatrixError] when either matrix has zero rows, throws the
    no-values error when both have rows but no cell, and returns when both
    have rows and there is a cell, under the same bound. When the gateway
    resolves with two matrices without cells, [execute] throws the
    no-values error after its single gateway call. *)
Theorem C8_no_values_guard :
  forall max_arguments,
    (forall a b : Matrix,
       List.concat a ++ List.concat b = [] ->
       calculateMatrixStatistics max_arguments a b = throw_invalid MSG_NO_VALUES)
    /\ (forall a b : Matrix,
          List.concat a ++ List.concat b <> [] ->
          fits max_arguments (List.concat a ++ List.concat b) ->
          exists s, calculateMatrixStatistics max_arguments a b = Returned s)
    /\ (forall (a b : Matrix) (qr : QRFactorization),
          a = [] \/ b = [] ->
          CalculateMatrixStatsUseCase.execute max_arguments (mkGoData a b qr)
          = throw_invalid CalculateMatrixStatsUseCase.MSG_EMPTY_MATRICES)
    /\ (forall (a b : Matrix) (qr : QRFactorization),
          a <> [] -> b <> [] ->
          List.concat a ++ List.concat b = [] ->
          CalculateMatrixStatsUseCase.execute max_arguments (mkGoData a b qr)
          = throw_invalid MSG_NO_VALUES)
    /\ (forall (a b : Matrix) (qr : QRFactorization),
          a <> [] -> b <> [] ->
          List.concat a ++ List.concat b <> [] ->
          fits max_arguments (List.concat a ++ List.concat b) ->
          exists s,
            CalculateMatrixStatsUseCase.execute max_arguments (mkGoData a b qr)
            = Returned s)
    /\ (forall goApiGateway matrix goResult,
          validate matrix = Returned tt ->
          goApiGateway matrix = Returned goResult ->
          List.concat (original_matrix goResult)
          ++ List.concat (rotated_matrix goResult) = [] ->
          execute max_arguments goApiGateway matrix []
          = (throw_invalid MSG_NO_VALUES, [matrix])).
Proof.
  intros max_arguments.
  assert (guard : forall a b : Matrix,
            List.concat a ++ List.concat b = [] ->
            calculateMatrixStatistics max_arguments a b = throw_invalid MSG_NO_VALUES).
  { intros a b H. unfold calculateMatrixStatistics.
    rewrite allValues_concat, H. reflexivity. }
  split; [exact guard|]. split.
  { intros a b H F. eexists. now apply calculateMatrixStatistics_returns. }
  split.
  { intros a b qr H. unfold CalculateMatrixStatsUseCase.execute.
    cbn [original_matrix rotated_matrix].
    destruct H as [-> | ->]; cbn [List.length Nat.eqb orb]; [reflexivity|].
    now rewrite orb_true_r. }
  split.
  { intros a b qr Ha Hb H. unfold CalculateMatrixStatsUseCase.execute.
    cbn [original_matrix rotated_matrix].
    apply length_eqb_0 in Ha, Hb. rewrite Ha, Hb. cbn [orb].
    rewrite allValues_concat, H. reflexivity. }
  split.
  { intros a b qr Ha Hb H F. eexists. now apply CalculateMatrixStatsUseCase_returns. }
  intros goApiGateway matrix goResult Hv Hg H.
  rewrite (execute_resolved _ _ _ _ _ Hv Hg). now rewrite (guard _ _ H).
Qed.

(** An instance of C8: the gateway resolves with [[]] and [[]] for the
    valid matrix [[1]]. *)
Lemma C8_no_values_guard_witness :
  execute 125000 (fun _ => Returned (mkGoData [[]] [[]] (mkQR [] [])))
    (matrix_of [[JsNumber 1]]) []
  = (throw_invalid MSG_NO_VALUES, [matrix_of [[JsNumber 1]]]).
Proof.
  apply (proj2 (proj2 (proj2 (proj2 (proj2 (C8_no_values_guard 125000)))))
           (fun _ => Returned (mkGoData [[]] [[]] (mkQR [] [])))
           (matrix_of [[JsNumber 1]]) (mkGoData [[]] [[]] (mkQR [] [])));
    reflexivity.
Defined.

(** * Further properties of the code *)

(** ** The gateway call of [execute] *)

(** X1. [execute] calls [processMatrix] at most once: exactly once, with
    the request matrix itself, when validation passes, and not at all
    when it throws; whatever the gateway then does. *)
Theorem execute_calls_gateway_once_iff_valid :
  forall max_arguments goApiGateway matrix calls,
    snd (execute max_arguments goApiGateway matrix calls)
    = match validate matrix with
      | Returned _ => calls ++ [matrix]
      | Thrown _ => calls
      end.
Proof.
  intros max_arguments goApiGateway matrix calls.
  destruct (validate matrix) as [[]|error] eqn:Hv.
  - destruct (goApiGateway matrix) as [goResult|gerr] eqn:Hg.
    + now rewrite (execute_resolved _ _ _ _ _ Hv Hg).
    + now rewrite (execute_rejected _ _ _ _ _ Hv Hg).
  - now rewrite (execute_invalid _ _ _ _ _ Hv).
Qed.

(** X2. On success [execute] returns the backend's original matrix,
    rotated matrix and QR factorization as received, with the statistics
    of the backend's two matrices, not of the request matrix; it succeeds
    when the backend's matrices have a cell and their cells can be spread
    into one call of [Math.max]. *)
Theorem execute_returns_backend_payload_with_its_statistics :
  forall max_arguments goApiGateway matrix goResult,
    validate matrix = Returned tt ->
    goApiGateway matrix = Returned goResult ->
    List.concat (original_matrix goResult)
    ++ List.concat (rotated_matrix goResult) <> [] ->
    fits max_arguments
      (List.concat (original_matrix goResult)
       ++ List.concat (rotated_matrix goResult)) ->
    execute max_arguments goApiGateway matrix []
    = (Returned
         {| originalMatrix := original_matrix goResult;
            rotatedMatrix := rotated_matrix goResult;
            qrFactorization := qr_factorization goResult;
            statistics :=
              statistics_of
                (List.concat (original_matrix goResult)
                 ++ List.concat (rotated_matrix goResult))
                (original_matrix goResult) (rotated_matrix goResult) |},
       [matrix]).
Proof.
  intros max_arguments goApiGateway matrix goResult Hv Hg Hne Hfit.
  rewrite (execute_resolved _ _ _ _ _ Hv Hg).
  now rewrite (calculateMatrixStatistics_returns _ _ _ Hne Hfit).
Qed.

(** An instance of X2: the request [[1,2]] answered with the matrices
    [[9]] and [[3]], on an engine that takes 125000 arguments. *)
Lemma execute_returns_backend_payload_with_its_statistics_witness :
  execute 125000 (fun _ => Returned (mkGoData [[9%float]] [[3%float]] (mkQR [] [])))
    (matrix_of [[JsNumber 1; JsNumber 2]]) []
  = (Returned
       {| originalMatrix := [[9%float]];
          rotatedMatrix := [[3%float]];
          qrFactorization := mkQR [] [];
          statistics := statistics_of [9%float; 3%float] [[9%float]] [[3%float]] |},
     [matrix_of [[JsNumber 1; JsNumber 2]]]).
Proof.
  apply (execute_returns_backend_payload_with_its_statistics 125000
           (fun _ => Returned (mkGoData [[9%float]] [[3%float]] (mkQR [] [])))
           (matrix_of [[JsNumber 1; JsNumber 2]])
           (mkGoData [[9%float]] [[3%float]] (mkQR [] []))).
  - reflexivity.
  - reflexivity.
  - discriminate.
  - unfold fits. cbn. lia.
Defined.

(** X3. A gateway rejection without an [error.response] (an [AppError]
    of whatever status and code, a native error, an Axios error that got
    no response) comes out of [execute] as what
    [new GoApiError(message, 'NETWORK_ERROR')] builds: status 500, code
    'GO_API_ERROR', 'NETWORK_ERROR' as its details, and as message the
    original message after a fixed prefix. *)
Theorem execute_replaces_rejections_without_response :
  forall max_arguments goApiGateway matrix error,
    validate matrix = Returned tt ->
    goApiGateway matrix = Thrown error ->
    error_response error = None ->
    exists e,
      execute max_arguments goApiGateway matrix [] = (Thrown (AppErr e), [matrix])
      /\ e = GoApiError
               (Some ("Fallo al conectar o error desconocido de la API de Go: "
                      ++ error_message error)%string)
               (Some "NETWORK_ERROR") None
      /\ statusCode e = 500%Z
      /\ errorCode e = "GO_API_ERROR"
      /\ details e = Some "NETWORK_ERROR".
Proof.
  intros max_arguments goApiGateway matrix error Hv Hg Hr.
  eexists. split; [|split; [reflexivity|repeat split]].
  rewrite (execute_rejected _ _ _ _ _ Hv Hg).
  now rewrite on_gateway_error_without_response.
Qed.

(** An instance of X3: an [UnauthorizedError] (status 401). *)
Lemma execute_replaces_rejections_without_response_witness :
  exists e,
    execute 125000 (fun _ => Thrown (AppErr (UnauthorizedError (Some "bad token"))))
      (matrix_of [[JsNumber 1]]) []
    = (Thrown (AppErr e), [matrix_of [[JsNumber 1]]])
    /\ e = GoApiError
             (Some ("Fallo al conectar o error desconocido de la API de Go: "
                    ++ "Authentication required or invalid token.")%string)
             (Some "NETWORK_ERROR") None
    /\ statusCode e = 500%Z
    /\ errorCode e = "GO_API_ERROR"
    /\ details e = Some "NETWORK_ERROR".
Proof.
  apply (execute_replaces_rejections_without_response 125000
           (fun _ => Thrown (AppErr (UnauthorizedError (Some "bad token"))))
           (matrix_of [[JsNumber 1]])
           (AppErr (UnauthorizedError (Some "bad token"))));
    reflexivity.
Defined.

(** X24. A gateway rejection that does carry a response with a non-zero
    status, other than a 400 with the dimension code, leaves [execute] as
    what [new GoApiError(message, code, status)] builds with the status
    of the response: the body's details (else a text with the status)
    are the message, the body's error code (else 'GO_API_ERROR') goes to
    [details], and [statusCode] is the response status. *)
Theorem execute_keeps_status_of_response_errors :
  forall max_arguments goApiGateway matrix msg response request,
    validate matrix = Returned tt ->
    goApiGateway matrix = Thrown (AxiosErr msg (Some response) request) ->
    status response <> 0%Z ->
    (status response = 400%Z ->
     opt_field (data response) resp_error <> Some DIMENSIONS_CODE) ->
    exists e,
      execute max_arguments goApiGateway matrix [] = (Thrown (AppErr e), [matrix])
      /\ e = GoApiError
               (Some (or_else (opt_field (data response) resp_details)
                        ("Error de la API de Go con estado "
                         ++ string_of_status (status response) ++ ".")%string))
               (Some (or_else (opt_field (data response) resp_error) "GO_API_ERROR"))
               (Some (status response))
      /\ statusCode e = status response
      /\ errorCode e = "GO_API_ERROR"
      /\ details e
         = Some (or_else (opt_field (data response) resp_error) "GO_API_ERROR").
Proof.
  intros max_arguments goApiGateway matrix msg response request Hv Hg H0 H400.
  eexists. split; [|split; [reflexivity|repeat split]].
  rewrite (execute_rejected _ _ _ _ _ Hv Hg).
  now rewrite on_gateway_error_with_response.
Qed.

(** An instance of X24: a 503 without a body. *)
Lemma execute_keeps_status_of_response_errors_witness :
  exists e,
    execute 125000
      (fun _ => Thrown (AxiosErr "Request failed with status code 503"
                          (Some {| status := 503; data := None |}) true))
      (matrix_of [[JsNumber 1]]) []
    = (Thrown (AppErr e), [matrix_of [[JsNumber 1]]])
    /\ e = GoApiError (Some "Error de la API de Go con estado 503.")
             (Some "GO_API_ERROR") (Some 503%Z)
    /\ statusCode e = 503%Z
    /\ errorCode e = "GO_API_ERROR"
    /\ details e = Some "GO_API_ERROR".
Proof.
  apply (execute_keeps_status_of_response_errors 125000
           (fun _ => Thrown (AxiosErr "Request failed with status code 503"
                               (Some {| status := 503; data := None |}) true))
           (matrix_of [[JsNumber 1]]) "Request failed with status code 503"
           {| status := 503; data := None |} true).
  - reflexivity.
  - reflexivity.
  - discriminate.
  - discriminate.
Defined.

Lemma on_gateway_error_built error :
  (exists text, on_gateway_error error = InvalidMatrixError (Some text))
  \/ exists text code status,
       on_gateway_error error = GoApiError (Some text) (Some code) status.
Proof.
  unfold on_gateway_error.
  destruct (error_response error) as [response|]; [|right; eauto].
  destruct (Z.eqb (status response) 0); [right; eauto|].
  destruct (_ && _); [left|right]; eauto.
Qed.

Lemma check_rows_type_error numCols items name msg :
  check_rows numCols items = Thrown (NativeErr name msg) ->
  name = "TypeError" /\ validation_type_error msg.
Proof.
  unfold validation_type_error.
  induction items as [|row rest IH]; cbn; [discriminate|].
  destruct (length_is row numCols) as [[]|];
    unfold throw_invalid, type_error.
  - destruct row as [| | | | |cells|]; try (intros [= <- <-]; tauto).
    destruct (every_number cells); [exact IH|discriminate].
  - discriminate.
  - destruct row; intros [= <- <-]; tauto.
Qed.

Lemma validate_type_error matrix name msg :
  validate matrix = Thrown (NativeErr name msg) ->
  name = "TypeError" /\ validation_type_error msg.
Proof.
  unfold validate. destruct (empty_or_malformed matrix);
    unfold throw_invalid; [discriminate|].
  destruct matrix as [| | | | |items|];
    try (unfold type_error, validation_type_error; intros [= <- <-]; tauto).
  apply check_rows_type_error.
Qed.

(** The three ways [execute] can throw. *)
Lemma execute_thrown_cases max_arguments goApiGateway matrix calls error :
  fst (execute max_arguments goApiGateway matrix calls) = Thrown error ->
  validate matrix = Thrown error
  \/ (exists gerr,
        goApiGateway matrix = Thrown gerr /\ error = AppErr (on_gateway_error gerr))
  \/ exists goResult,
       goApiGateway matrix = Returned goResult
       /\ calculateMatrixStatistics max_arguments (original_matrix goResult)
            (rotated_matrix goResult) = Thrown error.
Proof.
  intros H. destruct (validate matrix) as [[]|verr] eqn:Hv.
  - destruct (goApiGateway matrix) as [goResult|gerr] eqn:Hg.
    + rewrite (execute_resolved _ _ _ _ _ Hv Hg) in H. cbn [fst] in H.
      destruct (calculateMatrixStatistics _ _ _) as [st|serr] eqn:Hs; [discriminate|].
      injection H as <-. right; right. eauto.
    + rewrite (execute_rejected _ _ _ _ _ Hv Hg) in H. cbn [fst] in H.
      injection H as <-. right; left. eauto.
  - rewrite (execute_invalid _ _ _ _ _ Hv) in H. cbn [fst] in H.
    injection H as <-. now left.
Qed.

(** X4. Whatever the input, and whatever payload the gateway resolves
    with or error it rejects with, what [execute] throws is one of four
    things: an error built by [InvalidMatrixError]; an error
    built by [GoApiError]; the native [TypeError] the validation throws
    on a matrix or a row it cannot read; or the [RangeError] of
    [Math.max(...allValues)] when the backend's matrices have more cells
    than the engine takes arguments. An [AppError] it throws therefore
    has code 'INVALID_MATRIX' or 'GO_API_ERROR', never 'UNAUTHORIZED'. *)
Theorem execute_throws_InvalidMatrix_GoApi_TypeError_or_RangeError :
  forall max_arguments goApiGateway matrix calls error,
    fst (execute max_arguments goApiGateway matrix calls) = Thrown error ->
    ((exists text, error = AppErr (InvalidMatrixError (Some text)))
     \/ (exists text code status,
           error = AppErr (GoApiError (Some text) (Some code) status))
     \/ (exists msg,
           error = NativeErr "TypeError" msg
           /\ validation_type_error msg
           /\ validate matrix = Thrown error)
     \/ (error = range_error
         /\ exists goResult,
              goApiGateway matrix = Returned goResult
              /\ ~ fits max_arguments
                     (List.concat (original_matrix goResult)
                      ++ List.concat (rotated_matrix goResult))))
    /\ forall e,
         error = AppErr e ->
         errorCode e = "INVALID_MATRIX" \/ errorCode e = "GO_API_ERROR".
Proof.
  intros max_arguments goApiGateway matrix calls error H.
  assert (D : (exists text, error = AppErr (InvalidMatrixError (Some text)))
              \/ (exists text code status,
                    error = AppErr (GoApiError (Some text) (Some code) status))
              \/ (exists msg,
                    error = NativeErr "TypeError" msg
                    /\ validation_type_error msg
                    /\ validate matrix = Thrown error)
              \/ (error = range_error
                  /\ exists goResult,
                       goApiGateway matrix = Returned goResult
                       /\ ~ fits max_arguments
                              (List.concat (original_matrix goResult)
                               ++ List.concat (rotated_matrix goResult)))).
  { apply execute_thrown_cases in H as [Hv|[(gerr & Hg & ->)|(goResult & Hg & Hs)]].
    - destruct (validate_thrown _ _ Hv) as [(text & -> & _)|(msg & ->)];
        [left; eauto|].
      right; right; left. exists msg.
      destruct (validate_type_error _ _ _ Hv) as [_ T]. auto.
    - destruct (on_gateway_error_built gerr) as [(text & ->)|(text & code & st & ->)];
        [left; eauto|right; left; eauto].
    - apply calculateMatrixStatistics_thrown in Hs as [->|[-> F]];
        [left; eauto|].
      right; right; right. eauto. }
  split; [exact D|].
  intros e ->.
  destruct D as [(text & [= ->])|[(text & code & st & [= ->])|[(msg & [=] & _)|[[=] _]]]];
    [now left|now right].
Qed.

(** An instance of X4: a gateway rejecting with an [UnauthorizedError]. *)
Lemma execute_throws_InvalidMatrix_GoApi_TypeError_or_RangeError_witness :
  errorCode (on_gateway_error (AppErr (UnauthorizedError None))) = "INVALID_MATRIX"
  \/ errorCode (on_gateway_error (AppErr (UnauthorizedError None))) = "GO_API_ERROR".
Proof.
  apply (proj2 (execute_throws_InvalidMatrix_GoApi_TypeError_or_RangeError 125000
                  (fun _ => Thrown (AppErr (UnauthorizedError None)))
                  (matrix_of [[JsNumber 1]]) []
                  (AppErr (on_gateway_error (AppErr (UnauthorizedError None))))
                  eq_refl)
           (on_gateway_error (AppErr (UnauthorizedError None))) eq_refl).
Defined.

(** ** [execute] over the HTTP client *)

Lemma is_string_true x literal : is_string x literal = true -> x = Some literal.
Proof.
  destruct x as [s|]; cbn; [|discriminate].
  intros H. apply String.eqb_eq in H. now subst.
Qed.

Lemma is_string_false x literal : x <> Some literal -> is_string x literal = false.
Proof.
  intros H. destruct (is_string x literal) eqn:E; [|reflexivity].
  apply is_string_true in E. contradiction.
Qed.

(** What the client can reject with: an [AppError], a native error, or
    the untouched Axios error of a 400 with the dimension code. *)
Lemma processMatrix_rejection post matrix gerr :
  GoApiHttpClient.processMatrix post matrix = Thrown gerr ->
  (exists e, gerr = AppErr e)
  \/ (exists name msg, gerr = NativeErr name msg)
  \/ exists msg r body request,
       gerr = AxiosErr msg (Some r) request
       /\ data r = Some body /\ status r = 400%Z
       /\ resp_error body = Some DIMENSIONS_CODE.
Proof.
  unfold GoApiHttpClient.processMatrix.
  destruct (post matrix) as [[body|]|msg response request].
  - destruct (resp_data body); [discriminate|]. intros [= <-]. left. eauto.
  - intros [= <-]. left. eauto.
  - intros [= <-]. unfold GoApiHttpClient.interceptor.
    destruct response as [r|].
    + destruct (data r) as [body|] eqn:D; [|right; left; eauto].
      destruct (Z.eqb (status r) 401); [left; eauto|].
      destruct (Z.eqb_spec (status r) 400) as [E|E]; cbn [andb]; [|left; eauto].
      destruct (is_string (resp_error body) DIMENSIONS_CODE) eqn:S; [|left; eauto].
      right; right. exists msg, r, body, request.
      apply is_string_true in S. auto.
    + destruct request; left; eauto.
Qed.

(** What the catch block makes of the client's rejections. *)
Lemma client_rejection_status post matrix gerr :
  GoApiHttpClient.processMatrix post matrix = Thrown gerr ->
  (errorCode (on_gateway_error gerr) = "INVALID_MATRIX"
   /\ statusCode (on_gateway_error gerr) = 400%Z)
  \/ (errorCode (on_gateway_error gerr) = "GO_API_ERROR"
      /\ statusCode (on_gateway_error gerr) = 500%Z
      /\ details (on_gateway_error gerr) = Some "NETWORK_ERROR").
Proof.
  intros Hg.
  destruct (processMatrix_rejection _ _ _ Hg)
    as [(e' & ->)|[(name & msg & ->)|(msg & r & body & request & -> & D & S & C)]].
  - right. repeat split.
  - right. repeat split.
  - left. destruct r as [st dt]. cbn in D, S. subst st dt.
    rewrite (on_gateway_error_dimensions _ _ _ C). split; reflexivity.
Qed.

(** X5. With [GoApiHttpClient] as the gateway, every [AppError] thrown by
    [execute] has code 'INVALID_MATRIX' and status 400, or code
    'GO_API_ERROR', status 500 and details 'NETWORK_ERROR': no other
    backend status reaches the caller of [execute]. *)
Theorem execute_over_http_client_status_400_or_500 :
  forall max_arguments post matrix calls e,
    fst (execute max_arguments (GoApiHttpClient.processMatrix post) matrix calls)
    = Thrown (AppErr e) ->
    (errorCode e = "INVALID_MATRIX" /\ statusCode e = 400%Z)
    \/ (errorCode e = "GO_API_ERROR" /\ statusCode e = 500%Z
        /\ details e = Some "NETWORK_ERROR").
Proof.
  intros max_arguments post matrix calls e H.
  apply execute_thrown_cases in H as [Hv|[(gerr & Hg & [= ->])|(goResult & _ & Hs)]].
  - apply validate_thrown in Hv as [(text & [= ->] & _)|(msg & [=])].
    left. split; reflexivity.
  - now apply client_rejection_status with (post := post) (matrix := matrix).
  - apply calculateMatrixStatistics_thrown in Hs as [[= ->]|[[=] _]].
    left. split; reflexivity.
Qed.

(** An instance of X5: the backend answers 503. *)
Lemma execute_over_http_client_status_400_or_500_witness :
  exists e,
    fst (execute 125000
           (GoApiHttpClient.processMatrix
              (fun _ =>
                 GoApiHttpClient.Failed "Request failed with status code 503"
                   (Some {| status := 503;
                            data := Some (mkGoResponse None None None None) |})
                   true))
           (matrix_of [[JsNumber 1]]) [])
    = Thrown (AppErr e)
    /\ ((errorCode e = "INVALID_MATRIX" /\ statusCode e = 400%Z)
        \/ (errorCode e = "GO_API_ERROR" /\ statusCode e = 500%Z
            /\ details e = Some "NETWORK_ERROR")).
Proof.
  eexists. split; [reflexivity|].
  apply (execute_over_http_client_status_400_or_500 125000
           (fun _ =>
              GoApiHttpClient.Failed "Request failed with status code 503"
                (Some {| status := 503;
                         data := Some (mkGoResponse None None None None) |})
                true)
           (matrix_of [[JsNumber 1]]) []).
  reflexivity.
Defined.

(** X6. [GoApiHttpClient.processMatrix] itself keeps the backend's
    status: an error response with a body, other than a 401 and other
    than a 400 with the dimension code, is rejected with what
    [new GoApiError(message, code, status)] builds: [statusCode] is the
    response status; the message is the body's [message], else its
    [details], else a text with the status, and the body's error code
    (else 'HTTP_STATUS_<status>') goes to [details]. *)
Theorem http_client_rejects_with_backend_status :
  forall post matrix msg st body request,
    post matrix
    = GoApiHttpClient.Failed msg (Some {| status := st; data := Some body |}) request ->
    st <> 401%Z ->
    (st = 400%Z -> resp_error body <> Some DIMENSIONS_CODE) ->
    exists e,
      GoApiHttpClient.processMatrix post matrix = Thrown (AppErr e)
      /\ e = GoApiError
               (Some (or_else (resp_message body)
                        (or_else (resp_details body)
                           ("Go API responded with status "
                            ++ string_of_status st)%string)))
               (Some (or_else (resp_error body)
                        ("HTTP_STATUS_" ++ string_of_status st)%string))
               (Some st)
      /\ statusCode e = st
      /\ errorCode e = "GO_API_ERROR"
      /\ details e
         = Some (or_else (resp_error body)
                   ("HTTP_STATUS_" ++ string_of_status st)%string).
Proof.
  intros post matrix msg st body request Hp H401 H400.
  eexists. split; [|split; [reflexivity|repeat split]].
  unfold GoApiHttpClient.processMatrix. rewrite Hp.
  unfold GoApiHttpClient.interceptor. cbn [status data].
  apply Z.eqb_neq in H401. rewrite H401.
  destruct (Z.eqb_spec st 400) as [E|E]; cbn [andb]; [|reflexivity].
  now rewrite (is_string_false _ _ (H400 E)).
Qed.

(** An instance of X6: a 404 with an empty body object. *)
Lemma http_client_rejects_with_backend_status_witness :
  exists e,
    GoApiHttpClient.processMatrix
      (fun _ =>
         GoApiHttpClient.Failed "Request failed with status code 404"
           (Some {| status := 404; data := Some (mkGoResponse None None None None) |})
           true)
      (matrix_of [[JsNumber 1]])
    = Thrown (AppErr e)
    /\ e = GoApiError (Some "Go API responded with status 404")
             (Some "HTTP_STATUS_404") (Some 404%Z)
    /\ statusCode e = 404%Z
    /\ errorCode e = "GO_API_ERROR"
    /\ details e = Some "HTTP_STATUS_404".
Proof.
  apply (http_client_rejects_with_backend_status
           (fun _ =>
              GoApiHttpClient.Failed "Request failed with status code 404"
                (Some {| status := 404;
                         data := Some (mkGoResponse None None None None) |})
                true)
           (matrix_of [[JsNumber 1]]) "Request failed with status code 404" 404
           (mkGoResponse None None None None) true).
  - reflexivity.
  - discriminate.
  - discriminate.
Defined.

(** X7. A 2xx response without a body, or whose body lacks the [data]
    field, makes the client reject with what [new GoApiError('Go API
    response data is malformed or missing.')] builds, which [execute]
    re-throws as what [new GoApiError(message, 'NETWORK_ERROR')] builds
    (status 500, 'NETWORK_ERROR' in details), after its one call. *)
Theorem malformed_success_response_is_a_GoApiError :
  forall max_arguments post matrix body,
    validate matrix = Returned tt ->
    post matrix = GoApiHttpClient.Fulfilled body ->
    (forall b, body = Some b -> resp_data b = None) ->
    GoApiHttpClient.processMatrix post matrix
    = Thrown (AppErr (GoApiError (Some "Go API response data is malformed or missing.")
                        None None))
    /\ exists e,
         execute max_arguments (GoApiHttpClient.processMatrix post) matrix []
         = (Thrown (AppErr e), [matrix])
         /\ e = GoApiError
                  (Some "Fallo al conectar o error desconocido de la API de Go: Go API response data is malformed or missing.")
                  (Some "NETWORK_ERROR") None
         /\ statusCode e = 500%Z
         /\ details e = Some "NETWORK_ERROR".
Proof.
  intros max_arguments post matrix body Hv Hp Hb.
  assert (Hg : GoApiHttpClient.processMatrix post matrix
               = Thrown (AppErr (GoApiError
                                   (Some "Go API response data is malformed or missing.")
                                   None None))).
  { unfold GoApiHttpClient.processMatrix. rewrite Hp.
    destruct body as [b|]; [|reflexivity]. now rewrite (Hb b eq_refl). }
  split; [exact Hg|].
  eexists. split; [|split; [reflexivity|split; reflexivity]].
  now rewrite (execute_rejected _ _ _ _ _ Hv Hg).
Qed.

(** An instance of X7: an empty 2xx body. *)
Lemma malformed_success_response_is_a_GoApiError_witness :
  GoApiHttpClient.processMatrix (fun _ => GoApiHttpClient.Fulfilled None)
    (matrix_of [[JsNumber 1]])
  = Thrown (AppErr (GoApiError (Some "Go API response data is malformed or missing.")
                      None None)).
Proof.
  apply (malformed_success_response_is_a_GoApiError 125000
           (fun _ => GoApiHttpClient.Fulfilled None) (matrix_of [[JsNumber 1]]) None).
  - reflexivity.
  - reflexivity.
  - discriminate.
Defined.

(** X8. Through the HTTP client, a backend 400 whose body has the
    dimension code passes the interceptor untouched and leaves [execute]
    as an [InvalidMatrixError] whose [details] is the body's details, or
    the fallback text when they are missing or empty; the gateway has
    been called once. *)
Theorem backend_dimension_error_through_http_client :
  forall max_arguments post matrix msg body request,
    validate matrix = Returned tt ->
    post matrix
    = GoApiHttpClient.Failed msg (Some {| status := 400; data := Some body |}) request ->
    resp_error body = Some DIMENSIONS_CODE ->
    execute max_arguments (GoApiHttpClient.processMatrix post) matrix []
    = (Thrown
         (AppErr
            (InvalidMatrixError
               (Some (or_else (resp_details body)
                        "Las dimensiones de la matriz son inválidas según la API de Go.")))),
       [matrix]).
Proof.
  intros max_arguments post matrix msg body request Hv Hp Hc.
  apply execute_dimension_error with (msg := msg) (request := request);
    [assumption| |assumption].
  unfold GoApiHttpClient.processMatrix. rewrite Hp.
  unfold GoApiHttpClient.interceptor. cbn [status data]. rewrite Hc. reflexivity.
Qed.

(** An instance of X8: the body has the code and empty details, so the
    fallback text is used. *)
Lemma backend_dimension_error_through_http_client_witness :
  execute 125000
    (GoApiHttpClient.processMatrix
       (fun _ =>
          GoApiHttpClient.Failed "Request failed with status code 400"
            (Some {| status := 400;
                     data := Some (mkGoResponse None None (Some DIMENSIONS_CODE)
                                     (Some "")) |})
            true))
    (matrix_of [[JsNumber 1]]) []
  = (Thrown
       (AppErr
          (InvalidMatrixError
             (Some "Las dimensiones de la matriz son inválidas según la API de Go."))),
     [matrix_of [[JsNumber 1]]]).
Proof.
  apply (backend_dimension_error_through_http_client 125000
           (fun _ =>
              GoApiHttpClient.Failed "Request failed with status code 400"
                (Some {| status := 400;
                         data := Some (mkGoResponse None None (Some DIMENSIONS_CODE)
                                         (Some "")) |})
                true)
           (matrix_of [[JsNumber 1]]) "Request failed with status code 400"
           (mkGoResponse None None (Some DIMENSIONS_CODE) (Some "")) true);
    reflexivity.
Defined.

(** X9. Through the HTTP client, a backend 401 is rejected by the client
    with what [new UnauthorizedError(details)] builds and then leaves
    [execute] as what [new GoApiError(message, 'NETWORK_ERROR')] builds,
    with status 500: the caller of [execute] never sees the 401. *)
Theorem backend_401_through_http_client :
  forall max_arguments post matrix msg body request,
    validate matrix = Returned tt ->
    post matrix
    = GoApiHttpClient.Failed msg (Some {| status := 401; data := Some body |}) request ->
    GoApiHttpClient.processMatrix post matrix
    = Thrown
        (AppErr
           (UnauthorizedError
              (Some (or_else (resp_details body)
                       "Token de acceso de la aplicación inválido o expirado."))))
    /\ exists e,
         execute max_arguments (GoApiHttpClient.processMatrix post) matrix []
         = (Thrown (AppErr e), [matrix])
         /\ e = GoApiError
                  (Some "Fallo al conectar o error desconocido de la API de Go: Authentication required or invalid token.")
                  (Some "NETWORK_ERROR") None
         /\ statusCode e = 500%Z
         /\ errorCode e = "GO_API_ERROR"
         /\ details e = Some "NETWORK_ERROR".
Proof.
  intros max_arguments post matrix msg body request Hv Hp.
  assert (Hg : GoApiHttpClient.processMatrix post matrix
               = Thrown
                   (AppErr
                      (UnauthorizedError
                         (Some (or_else (resp_details body)
                                  "Token de acceso de la aplicación inválido o expirado."))))).
  { unfold GoApiHttpClient.processMatrix. now rewrite Hp. }
  split; [exact Hg|].
  eexists. split; [|split; [reflexivity|repeat split]].
  now rewrite (execute_rejected _ _ _ _ _ Hv Hg).
Qed.

(** An instance of X9. *)
Lemma backend_401_through_http_client_witness :
  GoApiHttpClient.processMatrix
    (fun _ =>
       GoApiHttpClient.Failed "Request failed with status code 401"
         (Some {| status := 401; data := Some (mkGoResponse None None None None) |})
         true)
    (matrix_of [[JsNumber 1]])
  = Thrown
      (AppErr
         (UnauthorizedError
            (Some "Token de acceso de la aplicación inválido o expirado."))).
Proof.
  apply (backend_401_through_http_client 125000
           (fun _ =>
              GoApiHttpClient.Failed "Request failed with status code 401"
                (Some {| status := 401;
                         data := Some (mkGoResponse None None None None) |})
                true)
           (matrix_of [[JsNumber 1]]) "Request failed with status code 401"
           (mkGoResponse None None None None) true);
    reflexivity.
Defined.

(** ** Rows that are not arrays *)

Lemma check_rows_skip_good numCols pre items :
  Forall (good_row numCols) pre ->
  check_rows numCols (map JsArray pre ++ items) = check_rows numCols items.
Proof.
  induction 1 as [|row pre [Hlen Hnum] _ IH]; [reflexivity|].
  cbn [map app check_rows length_is].
  apply Nat.eqb_eq in Hlen. rewrite Hlen.
  apply every_number_spec in Hnum. now rewrite Hnum.
Qed.

(** X10. Validation is not total over arrays: when the rows before it
    pass both checks, a row that is [null] or [undefined] makes the
    validation throw a native [TypeError] (reading [row.length]), not an
    [InvalidMatrixError]; [execute] lets it through without calling the
    gateway. *)
Theorem null_row_throws_TypeError :
  forall max_arguments goApiGateway pre row post calls,
    pre <> [] ->
    Forall (good_row (numCols_of pre)) pre ->
    row = JsNull \/ row = JsUndefined ->
    exists msg,
      validate (JsArray (map JsArray pre ++ row :: post)) = type_error msg
      /\ execute max_arguments goApiGateway
           (JsArray (map JsArray pre ++ row :: post)) calls
         = (type_error msg, calls).
Proof.
  intros max_arguments goApiGateway pre row post calls Hne Hgood Hrow.
  destruct pre as [|row0 pre']; [congruence|].
  assert (E : validate (JsArray (map JsArray (row0 :: pre') ++ row :: post))
              = check_rows (List.length row0) (row :: post)).
  { change (validate (JsArray (map JsArray (row0 :: pre') ++ row :: post)))
      with (check_rows (List.length row0)
              (map JsArray (row0 :: pre') ++ row :: post)).
    now apply check_rows_skip_good. }
  destruct Hrow as [-> | ->]; eexists; (split; [rewrite E; reflexivity|]);
    apply execute_invalid; rewrite E; reflexivity.
Qed.

(** An instance of X10: [[1,2], null]. *)
Lemma null_row_throws_TypeError_witness :
  exists msg,
    validate (JsArray (map JsArray [[JsNumber 1; JsNumber 2]] ++ JsNull :: []))
    = type_error msg
    /\ execute 125000 (fun _ => Returned (mkGoData [] [] (mkQR [] [])))
         (JsArray (map JsArray [[JsNumber 1; JsNumber 2]] ++ JsNull :: [])) []
       = (type_error msg, []).
Proof.
  apply (null_row_throws_TypeError 125000
           (fun _ => Returned (mkGoData [] [] (mkQR [] [])))
           [[JsNumber 1; JsNumber 2]] JsNull [] []).
  - discriminate.
  - constructor; [|constructor]. split; [reflexivity|]. repeat constructor.
  - now left.
Defined.

(** X11. On an array whose elements are all arrays the validation never
    throws a [TypeError]: it returns, or throws an [InvalidMatrixError]
    with one of its three texts, the 'empty or malformed' one exactly
    when there is no row. *)
Theorem validate_array_of_arrays_returns_or_InvalidMatrixError :
  forall rows,
    validate (matrix_of rows) = Returned tt
    \/ (rows = [] /\ validate (matrix_of rows) = throw_invalid MSG_EMPTY)
    \/ (rows <> []
        /\ (validate (matrix_of rows) = throw_invalid MSG_RECTANGULAR
            \/ validate (matrix_of rows) = throw_invalid MSG_NUMBERS)).
Proof.
  intros [|row0 rest]; [right; left; split; reflexivity|].
  rewrite validate_matrix_of by discriminate. rewrite check_rows_arrays.
  destruct (find _ _) as [r|]; [|now left].
  right; right. split; [discriminate|].
  destruct (Nat.eqb _ _); auto.
Qed.

(** ** The controller *)

Import MatrixController.

Lemma check_body_matrix_returned matrix :
  check_body_matrix matrix = Returned tt ->
  truthy matrix = true /\ Array_isArray matrix = true
  /\ empty_or_malformed matrix = false.
Proof.
  unfold check_body_matrix, empty_or_malformed.
  destruct (truthy matrix); cbn [negb]; unfold throw_invalid; [|discriminate].
  destruct (Array_isArray matrix); cbn [negb]; [|discriminate].
  destruct (_ || _) eqn:E; [discriminate|]. intros _.
  cbn [orb]. auto.
Qed.

(** X12. The controller's own checks make the use case's first check
    unreachable: a matrix the controller lets through is never rejected
    by [validate] as 'Input matrix is empty or malformed.'. *)
Theorem controller_checks_subsume_empty_or_malformed :
  forall matrix,
    check_body_matrix matrix = Returned tt ->
    empty_or_malformed matrix = false
    /\ validate matrix <> throw_invalid MSG_EMPTY.
Proof.
  intros matrix H. apply check_body_matrix_returned in H as (_ & _ & E).
  split; [assumption|]. unfold validate. rewrite E.
  destruct matrix as [| | | | |items|]; unfold type_error, throw_invalid;
    try discriminate.
  intros K. apply check_rows_thrown in K as [(text & [= <-] & [T|T])|(msg & [=])];
    discriminate T.
Qed.

(** An instance of X12: [[1]]. *)
Lemma controller_checks_subsume_empty_or_malformed_witness :
  empty_or_malformed (matrix_of [[JsNumber 1]]) = false
  /\ validate (matrix_of [[JsNumber 1]]) <> throw_invalid MSG_EMPTY.
Proof.
  apply (controller_checks_subsume_empty_or_malformed (matrix_of [[JsNumber 1]])).
  reflexivity.
Defined.

(** X13. When the [matrix] of the body is missing or falsy, is not an
    array, is an empty array or has a first element that is not an
    array, the controller passes to [next] an [InvalidMatrixError] with
    one of its own three texts, and the gateway is not called. *)
Theorem controller_rejects_malformed_body :
  forall max_arguments goApiGateway body matrix calls,
    destructure "matrix" body = Returned matrix ->
    truthy matrix = false \/ Array_isArray matrix = false
    \/ matrix = JsArray [] \/ Array_isArray (index0 matrix) = false ->
    exists text,
      processMatrix max_arguments goApiGateway body calls
      = (Next (AppErr (InvalidMatrixError (Some text))), calls)
      /\ (text = MSG_REQUIRED \/ text = MSG_NOT_ARRAY \/ text = MSG_MALFORMED).
Proof.
  intros max_arguments goApiGateway body matrix calls Hd H.
  assert (G : exists text,
             check_body_matrix matrix = throw_invalid text
             /\ (text = MSG_REQUIRED \/ text = MSG_NOT_ARRAY \/ text = MSG_MALFORMED)).
  { unfold check_body_matrix.
    destruct (truthy matrix); cbn [negb]; [|eauto].
    destruct (Array_isArray matrix) eqn:A; cbn [negb]; [|eauto].
    destruct H as [H|[H|[H|H]]]; try discriminate.
    - subst matrix. cbn. eauto.
    - rewrite H. cbn [negb]. rewrite orb_true_r. eauto. }
  destruct G as (text & G & T). exists text. split; [|exact T].
  unfold processMatrix, bind, lift. now rewrite Hd, G.
Qed.

(** An instance of X13: the body has no [matrix] property. *)
Lemma controller_rejects_malformed_body_witness :
  exists text,
    processMatrix 125000 (fun _ => Returned (mkGoData [] [] (mkQR [] [])))
      (JsObject []) []
    = (Next (AppErr (InvalidMatrixError (Some text))), [])
    /\ (text = MSG_REQUIRED \/ text = MSG_NOT_ARRAY \/ text = MSG_MALFORMED).
Proof.
  apply (controller_rejects_malformed_body 125000
           (fun _ => Returned (mkGoData [] [] (mkQR [] []))) (JsObject [])
           JsUndefined []).
  - reflexivity.
  - now left.
Defined.

Lemma check_body_matrix_of_valid matrix :
  validate matrix = Returned tt -> check_body_matrix matrix = Returned tt.
Proof.
  intros H. destruct (validate_returned _ H) as (rows & -> & Hne & _).
  destruct rows as [|row0 rest]; [congruence|]. reflexivity.
Qed.

(** X14. For a body whose [matrix] passes validation and a gateway that
    resolves with matrices having at least one cell, and no more cells
    than one call of [Math.max] takes arguments, the controller answers
    200 with the success message and the result of [execute] as [data],
    after one gateway call. *)
Theorem controller_answers_200_with_result :
  forall max_arguments goApiGateway body matrix goResult,
    destructure "matrix" body = Returned matrix ->
    validate matrix = Returned tt ->
    goApiGateway matrix = Returned goResult ->
    List.concat (original_matrix goResult)
    ++ List.concat (rotated_matrix goResult) <> [] ->
    fits max_arguments
      (List.concat (original_matrix goResult)
       ++ List.concat (rotated_matrix goResult)) ->
    processMatrix max_arguments goApiGateway body []
    = (Responded
         {| reply_status := 200;
            reply_body :=
              MatrixProcessed
                "Matrix processed and statistics generated successfully."
                {| originalMatrix := original_matrix goResult;
                   rotatedMatrix := rotated_matrix goResult;
                   qrFactorization := qr_factorization goResult;
                   statistics :=
                     statistics_of
                       (List.concat (original_matrix goResult)
                        ++ List.concat (rotated_matrix goResult))
                       (original_matrix goResult) (rotated_matrix goResult) |} |},
       [matrix]).
Proof.
  intros max_arguments goApiGateway body matrix goResult Hd Hv Hg Hne Hfit.
  pose proof (execute_resolved max_arguments goApiGateway matrix [] goResult Hv Hg)
    as E.
  rewrite (calculateMatrixStatistics_returns _ _ _ Hne Hfit) in E.
  unfold processMatrix, bind, lift.
  rewrite Hd, (check_body_matrix_of_valid _ Hv), E. reflexivity.
Qed.

(** An instance of X14: the body {matrix: [[5]]} and a backend answering
    [[5]] and [[5]]. *)
Lemma controller_answers_200_with_result_witness :
  processMatrix 125000 (fun _ => Returned (mkGoData [[5%float]] [[5%float]] (mkQR [] [])))
    (JsObject [("matrix", matrix_of [[JsNumber 5]])]) []
  = (Responded
       {| reply_status := 200;
          reply_body :=
            MatrixProcessed
              "Matrix processed and statistics generated successfully."
              {| originalMatrix := [[5%float]];
                 rotatedMatrix := [[5%float]];
                 qrFactorization := mkQR [] [];
                 statistics :=
                   statistics_of [5%float; 5%float] [[5%float]] [[5%float]] |} |},
     [matrix_of [[JsNumber 5]]]).
Proof.
  apply (controller_answers_200_with_result 125000
           (fun _ => Returned (mkGoData [[5%float]] [[5%float]] (mkQR [] [])))
           (JsObject [("matrix", matrix_of [[JsNumber 5]])])
           (matrix_of [[JsNumber 5]])
           (mkGoData [[5%float]] [[5%float]] (mkQR [] []))).
  - reflexivity.
  - reflexivity.
  - reflexivity.
  - discriminate.
  - unfold fits. cbn. lia.
Defined.

Lemma check_body_matrix_thrown matrix error :
  check_body_matrix matrix = Thrown error ->
  exists text,
    error = AppErr (InvalidMatrixError (Some text))
    /\ (text = MSG_REQUIRED \/ text = MSG_NOT_ARRAY \/ text = MSG_MALFORMED).
Proof.
  unfold check_body_matrix.
  destruct (negb (truthy matrix)); [intros [= <-]; eauto|].
  destruct (negb (Array_isArray matrix)); [intros [= <-]; eauto|].
  destruct (_ || _); [intros [= <-]; eauto|discriminate].
Qed.

(** X15. A native error thrown during validation (a row that cannot be
    read) is not an [AppError]: the controller wraps it into an
    [AppError] with status 500 and code 'INTERNAL_SERVER_ERROR' whose
    details are the error's message, the error middleware answers 500
    with it, and the gateway is not called. *)
Theorem controller_wraps_TypeError_as_500 :
  forall max_arguments goApiGateway body matrix msg calls,
    destructure "matrix" body = Returned matrix ->
    check_body_matrix matrix = Returned tt ->
    validate matrix = type_error msg ->
    processMatrix max_arguments goApiGateway body calls
    = (Next
         (AppErr
            {| class := AppErrorClass;
               message := "An unexpected error occurred during matrix processing.";
               statusCode := 500;
               errorCode := "INTERNAL_SERVER_ERROR";
               details := Some msg |}),
       calls)
    /\ App.finish (fst (processMatrix max_arguments goApiGateway body calls))
       = {| reply_status := 500;
            reply_body :=
              ErrorBody
                {| json_error := "INTERNAL_SERVER_ERROR";
                   json_details :=
                     "An unexpected error occurred during matrix processing.";
                   json_message := if String.eqb msg "" then None else Some msg |} |}.
Proof.
  intros max_arguments goApiGateway body matrix msg calls Hd Hc Hv.
  assert (E : processMatrix max_arguments goApiGateway body calls
              = (Next
                   (AppErr
                      {| class := AppErrorClass;
                         message := "An unexpected error occurred during matrix processing.";
                         statusCode := 500;
                         errorCode := "INTERNAL_SERVER_ERROR";
                         details := Some msg |}),
                 calls)).
  { unfold processMatrix, bind, lift. rewrite Hd, Hc.
    now rewrite (execute_invalid _ _ _ _ _ Hv). }
  split; [exact E|]. now rewrite E.
Qed.

(** An instance of X15: the body {matrix: [[1,2], null]}. *)
Lemma controller_wraps_TypeError_as_500_witness :
  App.finish
    (fst (processMatrix 125000 (fun _ => Returned (mkGoData [] [] (mkQR [] [])))
            (JsObject [("matrix", JsArray [JsArray [JsNumber 1; JsNumber 2]; JsNull])])
            []))
  = {| reply_status := 500;
       reply_body :=
         ErrorBody
           {| json_error := "INTERNAL_SERVER_ERROR";
              json_details := "An unexpected error occurred during matrix processing.";
              json_message :=
                Some "Cannot read properties of null (reading 'length')" |} |}.
Proof.
  apply (controller_wraps_TypeError_as_500 125000
           (fun _ => Returned (mkGoData [] [] (mkQR [] [])))
           (JsObject [("matrix", JsArray [JsArray [JsNumber 1; JsNumber 2]; JsNull])])
           (JsArray [JsArray [JsNumber 1; JsNumber 2]; JsNull])
           "Cannot read properties of null (reading 'length')" []);
    reflexivity.
Defined.

(** ** The request pipeline *)




Lemma authMiddleware_failure jwt_verify secret authorization error :
  authMiddleware jwt_verify secret authorization = AuthFail error ->
  exists text, error = UnauthorizedError (Some text) /\ auth_failure_text text.
Proof.
  unfold authMiddleware, auth_failure_text.
  destruct authorization as [authHeader|]; [|intros [= <-]; eauto].
  destruct (_ || _); [intros [= <-]; eauto|].
  destruct (jwt_verify _ _) as [decoded|name]; [discriminate|].
  destruct (String.eqb name "TokenExpiredError"); [intros [= <-]; eauto 6|].
  destruct (String.eqb name "JsonWebTokenError"); intros [= <-]; eauto 6.
Qed.

(** X17. Every failure of [authMiddleware], whatever [jwt.verify]
    throws, is an [UnauthorizedError]; the request is then answered 401
    with error 'UNAUTHORIZED' and one of the middleware's four texts
    under [message], and neither the controller nor the backend is
    reached. *)
Theorem unauthenticated_request_is_answered_401 :
  forall max_arguments jwt_verify secret post authorization body calls error,
    authMiddleware jwt_verify secret authorization = AuthFail error ->
    exists text,
      auth_failure_text text
      /\ error = UnauthorizedError (Some text)
      /\ App.post_process_matrix max_arguments jwt_verify secret post
           authorization body calls
         = ({| reply_status := 401;
               reply_body :=
                 ErrorBody
                   {| json_error := "UNAUTHORIZED";
                      json_details := "Authentication required or invalid token.";
                      json_message := Some text |} |},
            calls).
Proof.
  intros max_arguments jwt_verify secret post authorization body calls error Ha.
  destruct (authMiddleware_failure _ _ _ _ Ha) as (text & -> & T).
  exists text. split; [exact T|]. split; [reflexivity|].
  unfold App.post_process_matrix. rewrite Ha.
  unfold App.errorHandler. cbn.
  destruct T as [T|[T|[T|T]]]; rewrite T; reflexivity.
Qed.

(** An instance of X17: a verifier that throws an error of an unknown
    kind. *)
Lemma unauthenticated_request_is_answered_401_witness :
  exists text,
    auth_failure_text text
    /\ UnauthorizedError (Some "Authentication failed.")
       = UnauthorizedError (Some text)
    /\ App.post_process_matrix 125000
         (fun _ _ => VerifyThrows "NotBeforeError") "secret"
         (fun _ => GoApiHttpClient.Fulfilled None) (Some "Bearer abc")
         (JsObject []) []
       = ({| reply_status := 401;
             reply_body :=
               ErrorBody
                 {| json_error := "UNAUTHORIZED";
                    json_details := "Authentication required or invalid token.";
                    json_message := Some text |} |},
          []).
Proof.
  apply (unauthenticated_request_is_answered_401 125000
           (fun _ _ => VerifyThrows "NotBeforeError") "secret"
           (fun _ => GoApiHttpClient.Fulfilled None) (Some "Bearer abc")
           (JsObject []) [] (UnauthorizedError (Some "Authentication failed."))).
  reflexivity.
Defined.

Lemma controller_next_status max_arguments post body calls err :
  fst (processMatrix max_arguments (GoApiHttpClient.processMatrix post) body calls)
  = Next err ->
  exists e, err = AppErr e /\ (statusCode e = 400%Z \/ statusCode e = 500%Z).
Proof.
  unfold processMatrix, bind, lift.
  destruct (destructure "matrix" body) as [matrix|derr] eqn:Hd.
  - destruct (check_body_matrix matrix) as [[]|cerr] eqn:Hc.
    + destruct (execute max_arguments (GoApiHttpClient.processMatrix post) matrix
                  calls)
        as [[result|xerr] calls'] eqn:Hx; cbn [fst]; [discriminate|].
      intros [= <-].
      destruct xerr as [e|msg response request|name msg];
        cbn [MatrixController.on_error]; try (eexists; split; [reflexivity|now right]).
      exists e. split; [reflexivity|].
      assert (Hx' : fst (execute max_arguments (GoApiHttpClient.processMatrix post)
                           matrix calls)
                    = Thrown (AppErr e)) by now rewrite Hx.
      apply execute_thrown_cases
        in Hx' as [Hv|[(gerr & Hg & [= ->])|(goResult & _ & Hs)]].
      * apply validate_thrown in Hv as [(text & [= ->] & _)|(msg & [=])]. now left.
      * destruct (client_rejection_status _ _ _ Hg) as [[_ S]|[_ [S _]]]; auto.
      * apply calculateMatrixStatistics_thrown in Hs as [[= ->]|[[=] _]]. now left.
    + cbn [fst]. intros [= <-].
      apply check_body_matrix_thrown in Hc as (text & -> & _).
      eexists. split; [reflexivity|now left].
  - cbn [fst]. intros [= <-].
    destruct body; cbn in Hd; unfold type_error in Hd; try discriminate;
      injection Hd as <-; eexists; (split; [reflexivity|now right]).
Qed.

Lemma controller_responded_status max_arguments goApiGateway body calls reply :
  fst (processMatrix max_arguments goApiGateway body calls) = Responded reply ->
  reply_status reply = 200%Z.
Proof.
  unfold processMatrix.
  match goal with
  | |- context [match ?x with _ => _ end] => destruct x as [[result|xerr] c]
  end; cbn [fst]; [|discriminate].
  now intros [= <-].
Qed.

(** X18. Whatever the header, the body, the token verifier and the
    transport do, POST /api/matrix/process-matrix is answered with status
    200, 400, 401 or 500: the backend's own status codes never reach the
    client of the service. *)
Theorem process_matrix_endpoint_status_codes :
  forall max_arguments jwt_verify secret post authorization body calls,
    let status :=
      reply_status
        (fst (App.post_process_matrix max_arguments jwt_verify secret post
                authorization body calls)) in
    status = 200%Z \/ status = 400%Z \/ status = 401%Z \/ status = 500%Z.
Proof.
  intros max_arguments jwt_verify secret post authorization body calls. cbv zeta.
  unfold App.post_process_matrix.
  destruct (authMiddleware jwt_verify secret authorization) as [user|error] eqn:Ha.
  - destruct (processMatrix max_arguments (GoApiHttpClient.processMatrix post) body
                calls)
      as [h calls'] eqn:Hp. cbn [fst].
    destruct h as [reply|err].
    + left.
      apply (controller_responded_status max_arguments
               (GoApiHttpClient.processMatrix post) body calls).
      now rewrite Hp.
    + destruct (controller_next_status max_arguments post body calls err)
        as (e & -> & S);
        [now rewrite Hp|].
      cbn. destruct S as [S|S]; rewrite S; auto.
  - apply authMiddleware_failure in Ha as (text & -> & _). cbn. auto.
Qed.

(** ** The bearer token *)

Lemma split_no_space t :
  has_no_space t = true -> split SPACE t = [t].
Proof.
  induction t as [|c t IH]; [reflexivity|]. cbn [has_no_space split].
  intros H. apply andb_prop in H as [Hc Ht].
  apply negb_true_iff in Hc. rewrite Hc, (IH Ht). reflexivity.
Qed.

Lemma split_at_first_space t rest :
  has_no_space t = true ->
  split SPACE (t ++ String SPACE rest)%string = t :: split SPACE rest.
Proof.
  induction t as [|c t IH]; intros H.
  - cbn [String.append split]. now rewrite Ascii.eqb_refl.
  - cbn [has_no_space] in H. apply andb_prop in H as [Hc Ht].
    apply negb_true_iff in Hc.
    cbn [String.append split]. rewrite Hc, (IH Ht). reflexivity.
Qed.

Lemma bearer_header_token verify secret rest :
  authMiddleware verify secret (Some ("Bearer " ++ rest)%string)
  = match verify (nth_error (split SPACE rest) 0) secret with
    | Verified decoded => AuthPass decoded
    | VerifyThrows name =>
        if String.eqb name "TokenExpiredError"
        then AuthFail (UnauthorizedError (Some "Token expired. Please log in again."))
        else if String.eqb name "JsonWebTokenError"
        then AuthFail (UnauthorizedError (Some "Invalid token."))
        else AuthFail (UnauthorizedError (Some "Authentication failed."))
    end.
Proof.
  assert (P : String.prefix "Bearer " ("Bearer " ++ rest)%string = true)
    by (destruct rest; reflexivity).
  assert (S : split SPACE ("Bearer " ++ rest)%string = "Bearer" :: split SPACE rest).
  { change ("Bearer " ++ rest)%string with ("Bearer" ++ String SPACE rest)%string.
    now apply split_at_first_space. }
  unfold authMiddleware. rewrite P, S.
  change (String.eqb ("Bearer " ++ rest) "")%string with false.
  cbn [orb negb nth_error].
  destruct (split SPACE rest); reflexivity.
Qed.

(** X19. For a header 'Bearer <token>' whose token has no space,
    [jwt.verify] is given exactly that token and the configured secret;
    the middleware passes with the decoded payload when verification
    succeeds, and text after a further space is ignored. A header that is
    absent or does not start with 'Bearer ' is refused whatever the
    verifier would say. *)
Theorem bearer_token_is_what_is_verified :
  forall jwt_verify secret token,
    has_no_space token = true ->
    (forall decoded,
       jwt_verify (Some token) secret = Verified decoded ->
       authMiddleware jwt_verify secret (Some ("Bearer " ++ token)%string)
       = AuthPass decoded)
    /\ (forall trailing,
          authMiddleware jwt_verify secret
            (Some ("Bearer " ++ token ++ String SPACE trailing)%string)
          = authMiddleware jwt_verify secret (Some ("Bearer " ++ token)%string))
    /\ (forall authorization,
          authorization = None
          \/ (exists h, authorization = Some h /\ String.prefix "Bearer " h = false) ->
          authMiddleware jwt_verify secret authorization
          = AuthFail (UnauthorizedError (Some "No token provided or malformed token."))).
Proof.
  intros jwt_verify secret token Ht. split; [|split].
  - intros decoded Hv. rewrite bearer_header_token, (split_no_space _ Ht).
    cbn [nth_error]. now rewrite Hv.
  - intros trailing. rewrite !bearer_header_token.
    now rewrite (split_at_first_space _ trailing Ht), (split_no_space _ Ht).
  - intros authorization [->|(h & -> & Hp)]; [reflexivity|].
    unfold authMiddleware. rewrite Hp. cbn [negb]. now rewrite orb_true_r.
Qed.

(** An instance of X19: the token 'abc.def.ghi' with a verifier that
    accepts it. *)
Lemma bearer_token_is_what_is_verified_witness :
  authMiddleware
    (fun token _ =>
       match token with
       | Some "abc.def.ghi" => Verified (mkUser "user123" "testuser")
       | _ => VerifyThrows "JsonWebTokenError"
       end)
    "secret" (Some "Bearer abc.def.ghi")
  = AuthPass (mkUser "user123" "testuser").
Proof.
  apply (proj1 (bearer_token_is_what_is_verified
                  (fun token _ =>
                     match token with
                     | Some "abc.def.ghi" => Verified (mkUser "user123" "testuser")
                     | _ => VerifyThrows "JsonWebTokenError"
                     end)
                  "secret" "abc.def.ghi" eq_refl)).
  reflexivity.
Defined.

(** ** Configuration *)

Lemma or_else_not_empty a b : b <> "" -> or_else a b <> "".
Proof.
  intros Hb. unfold or_else. destruct a as [s|]; [|assumption].
  destruct (String.eqb_spec s ""); assumption.
Qed.

(** X20. A configuration that survives loading can always build the HTTP
    client: the process exits exactly when GO_API_APP_ACCESS_TOKEN is
    unset or empty; otherwise the base URL is never empty (it defaults),
    so the constructor of [GoApiHttpClient] does not throw, and the
    client sends 'Bearer <token>' with a timeout of 10000 ms. *)
Theorem loaded_config_builds_the_http_client :
  forall parseInt (env : Env),
    (load_config parseInt env = None
     <-> env "GO_API_APP_ACCESS_TOKEN" = None
         \/ env "GO_API_APP_ACCESS_TOKEN" = Some "")
    /\ forall config,
         load_config parseInt env = Some config ->
         env "GO_API_APP_ACCESS_TOKEN" = Some (goApiAppAccessToken config)
         /\ goApiBaseUrl config <> ""
         /\ jwtSecret config <> ""
         /\ new_GoApiHttpClient (goApiBaseUrl config) (goApiAppAccessToken config)
            = Returned
                {| baseURL := goApiBaseUrl config;
                   header_content_type := "application/json";
                   header_authorization :=
                     ("Bearer " ++ goApiAppAccessToken config)%string;
                   timeout := 10000 |}.
Proof.
  intros parseInt env. unfold load_config. cbn [goApiAppAccessToken].
  destruct (env "GO_API_APP_ACCESS_TOKEN") as [token|] eqn:Et; cbn [or_else].
  - destruct (String.eqb_spec token "") as [->|Hne]; cbn.
    + split; [split; auto|discriminate].
    + apply String.eqb_neq in Hne as Hb. rewrite Hb. cbn.
      split.
      * split; [discriminate|]. intros [H|[= H]]; [discriminate|contradiction].
      * intros config [= <-]. cbn.
        assert (U : or_else (env "GO_API_BASE_URL") "http://localhost:8080/api" <> "")
          by (apply or_else_not_empty; discriminate).
        assert (J : or_else (env "JWT_SECRET") "supersecretjwtkeyforexample" <> "")
          by (apply or_else_not_empty; discriminate).
        repeat split; auto.
        unfold new_GoApiHttpClient.
        apply String.eqb_neq in U. now rewrite U, Hb.
  - cbn. split; [split; auto|discriminate].
Qed.

(** An instance of X20: only the access token is set. *)
Lemma loaded_config_builds_the_http_client_witness :
  new_GoApiHttpClient "http://localhost:8080/api" "s3cret"
  = Returned
      {| baseURL := "http://localhost:8080/api";
         header_content_type := "application/json";
         header_authorization := "Bearer s3cret";
         timeout := 10000 |}.
Proof.
  apply (proj2 (loaded_config_builds_the_http_client
                  (fun _ => 3000%float)
                  (fun k => if String.eqb k "GO_API_APP_ACCESS_TOKEN"
                            then Some "s3cret" else None))
           {| nodeApiPort := 3000%float;
              goApiBaseUrl := "http://localhost:8080/api";
              goApiAppAccessToken := "s3cret";
              jwtSecret := "supersecretjwtkeyforexample";
              jwtExpiresIn := "1h" |}).
  reflexivity.
Defined.

(** ** The two statistics use cases *)

(** X21. When both matrices have at least one row,
    [CalculateMatrixStatsUseCase.execute] and the
    [calculateMatrixStatistics] of the orchestration use case give the
    same outcome, value or error; the QR factorization plays no part. *)
Theorem statistics_use_cases_agree_on_non_empty_matrices :
  forall max_arguments (a b : Matrix) (qr : QRFactorization),
    a <> [] -> b <> [] ->
    CalculateMatrixStatsUseCase.execute max_arguments (mkGoData a b qr)
    = calculateMatrixStatistics max_arguments a b.
Proof.
  intros max_arguments a b qr Ha Hb.
  unfold CalculateMatrixStatsUseCase.execute, calculateMatrixStatistics.
  cbn [original_matrix rotated_matrix].
  apply length_eqb_0 in Ha, Hb. now rewrite Ha, Hb.
Qed.

(** An instance of X21: [[]] and [[]], where both throw the no-values
    error. *)
Lemma statistics_use_cases_agree_on_non_empty_matrices_witness :
  CalculateMatrixStatsUseCase.execute 125000 (mkGoData [[]] [[]] (mkQR [] []))
  = calculateMatrixStatistics 125000 [[]] [[]].
Proof.
  apply (statistics_use_cases_agree_on_non_empty_matrices 125000 [[]] [[]]
           (mkQR [] []));
    discriminate.
Defined.

(** X22. When no cell is NaN, the statistics returned satisfy
    [minValue <= maxValue], and neither is NaN. *)
Theorem statistics_min_is_at_most_max :
  forall max_arguments (a b : Matrix) s,
    calculateMatrixStatistics max_arguments a b = Returned s ->
    no_NaN (List.concat a ++ List.concat b) ->
    PrimFloat.leb (minValue s) (maxValue s) = true
    /\ PrimFloat.is_nan (minValue s) = false
    /\ PrimFloat.is_nan (maxValue s) = false.
Proof.
  intros max_arguments a b s H Hn. unfold calculateMatrixStatistics in H.
  rewrite allValues_concat in H.
  destruct (List.concat a ++ List.concat b) as [|x rest] eqn:E;
    [discriminate H|].
  cbn [List.length Nat.eqb] in H.
  destruct (fits_dec max_arguments (x :: rest)) as [F|F];
    [rewrite (statistics_after_guard_fits _ _ _ _ F) in H
    |rewrite (statistics_after_guard_overflow _ _ _ _ F) in H; discriminate H].
  injection H as <-.
  cbn [statistics_of minValue maxValue].
  destruct (Math_max_from_spec (x :: rest) neg_infinity eq_refl Hn)
    as (Nmax & _ & _ & Amax).
  destruct (Math_min_from_spec (x :: rest) infinity eq_refl Hn)
    as (Nmin & _ & _ & Amin).
  inversion Hn as [|? ? Hx _]; subst.
  split; [|split; assumption].
  apply leb_trans with (y := x); auto.
  - apply Amin. now left.
  - apply Amax. now left.
Qed.

(** An instance of X22: the matrices [[1,2]] and [[3]]. *)
Lemma statistics_min_is_at_most_max_witness :
  PrimFloat.leb 1%float 3%float = true
  /\ PrimFloat.is_nan 1%float = false
  /\ PrimFloat.is_nan 3%float = false.
Proof.
  apply (statistics_min_is_at_most_max 125000 [[1; 2]]%float [[3]]%float
           (statistics_of [1; 2; 3]%float [[1; 2]]%float [[3]]%float)).
  - reflexivity.
  - repeat constructor.
Defined.

(** ** What [isDiagonal] reads *)

(** X23. [isDiagonal] never reads a diagonal cell: two matrices with the
    same number of rows, the same first-row length and the same cells at
    every position off the diagonal get the same answer. *)
Theorem isDiagonal_ignores_the_diagonal :
  forall m m' : Matrix,
    List.length m = List.length m' ->
    first_row_length m = first_row_length m' ->
    (forall i j, i <> j -> cell m i j = cell m' i j) ->
    isDiagonal m = isDiagonal m'.
Proof.
  assert (one_way : forall m m' : Matrix,
            List.length m = List.length m' ->
            first_row_length m = first_row_length m' ->
            (forall i j, i <> j -> cell m i j = cell m' i j) ->
            isDiagonal m = true -> isDiagonal m' = true).
  { intros m m' Hl Hf Hc H. apply isDiagonal_spec in H as [Hsq H].
    apply isDiagonal_spec. split.
    - unfold square in *. now rewrite <- Hf, <- Hl.
    - intros i j Hi Hj Hij. rewrite <- Hl in Hi, Hj.
      rewrite <- (Hc i j Hij). auto. }
  intros m m' Hl Hf Hc.
  destruct (isDiagonal m) eqn:E, (isDiagonal m') eqn:E'; try reflexivity.
  - rewrite (one_way m m' Hl Hf Hc E) in E'. discriminate.
  - rewrite (one_way m' m (eq_sym Hl) (eq_sym Hf)
               (fun i j Hij => eq_sym (Hc i j Hij)) E') in E. discriminate.
Qed.

(** An instance of X23: [[1,0],[0,2]] and [[7,0],[0,NaN]]. *)
Lemma isDiagonal_ignores_the_diagonal_witness :
  isDiagonal [[1; 0]; [0; 2]]%float = isDiagonal [[7; 0]; [0; nan]]%float.
Proof.
  apply (isDiagonal_ignores_the_diagonal
           [[1; 0]; [0; 2]]%float [[7; 0]; [0; nan]]%float).
  - reflexivity.
  - reflexivity.
  - intros i j Hij.
    destruct i as [|[|i]], j as [|[|j]]; try reflexivity; try congruence;
      cbn; try (destruct j; reflexivity); try (destruct i; reflexivity).
Defined.

(** ** The inputs validation accepts *)

(** X25. The validation returns exactly on the non-empty arrays whose
    elements are arrays of the first row's length holding only values of
    type number; an empty first row is accepted when every row is
    empty. *)
Theorem validate_accepts_exactly_rectangular_numeric_arrays :
  forall matrix,
    validate matrix = Returned tt
    <-> exists rows,
          matrix = matrix_of rows /\ rows <> []
          /\ Forall (good_row (numCols_of rows)) rows.
Proof.
  intros matrix. split.
  - apply validate_returned.
  - intros (rows & -> & Hne & Hgood). now apply validate_good.
Qed.
